(** * AfreecaTV extractors of yt-dlp: a shallow embedding and its properties

    Source: [src/yt_dlp/extractor/afreecatv.py], classes [AfreecaTVIE]
    (log-in and on-demand video), [AfreecaTVLiveIE] (live streams) and
    [AfreecaTVUserIE] (listings of a user's videos).

    The extractors are sequential glue: they fetch JSON documents through
    the methods of the [InfoExtractor] base class, pick fields out of them
    and assemble info dicts.  The embedding keeps that shape:
    - JSON documents are the inductive type [json], with Python's
      truthiness, [dict.get], [x or y] and [int(x)] written out;
    - info dicts are finite maps from keys to values ([gmap string pyval]),
      so that the dict displays [{**a, 'k': v, **b}] of the source are unions
      and inserts;
    - the base class and the helpers of [yt_dlp.utils], which are imported
      by the module but are not part of it, form the interface [Host];
    - effects (requests, warnings, raised exceptions) are explicit: an
      extractor is a computation in the monad [M], which logs the events
      in the order the code performs them and ends in a value or an error. *)

From Stdlib Require Import ZArith String Ascii List SpecFloat.
From stdpp Require Import gmap strings list pretty.

#[local] Set Warnings "-register-all".
Local Open Scope string_scope.
Local Open Scope list_scope.
Local Open Scope Z_scope.

(** ** JSON values as Python sees them after [json.loads] *)

Inductive json : Type :=
| JNull
| JBool (b : bool)
| JInt (z : Z)
| JFloat (f : spec_float)
| JStr (s : string)
| JList (l : list json)
| JDict (o : list (string * json)).

(** Python's [bool(v)]: what [if v], [not v] and [v or w] test. *)
Definition truthy (v : json) : bool :=
  match v with
  | JNull => false
  | JBool b => b
  | JInt z => negb (z =? 0)
  | JFloat (S754_zero _) => false
  | JFloat _ => true
  | JStr s => negb (String.eqb s "")
  | JList l => match l with [] => false | _ => true end
  | JDict o => match o with [] => false | _ => true end
  end.

(** [v or w]. *)
Definition py_or (v w : json) : json := if truthy v then v else w.

(** The entries of a dict, in insertion order; a key occurs once. *)
Fixpoint assoc (k : string) (o : list (string * json)) : option json :=
  match o with
  | [] => None
  | (k', v) :: o' => if String.eqb k k' then Some v else assoc k o'
  end.

(** [o.get(k, d)] and [o.get(k)] on a dict. *)
Definition dict_get_default (o : list (string * json)) (k : string) (d : json) : json :=
  match assoc k o with Some v => v | None => d end.

Definition dict_get (o : list (string * json)) (k : string) : json :=
  dict_get_default o k JNull.

(** [int(f)] on a float: truncation towards zero; infinities raise
    [OverflowError] and NaN raises [ValueError]. *)
Definition int_of_float (f : spec_float) : option Z :=
  match f with
  | S754_zero _ => Some 0
  | S754_finite s m e =>
      let a := if 0 <=? e then Z.pos m * 2 ^ e else Z.pos m / 2 ^ (- e) in
      Some (if s then - a else a)
  | S754_infinity _ | S754_nan => None
  end.

(** ** Info dicts: the values the extractors return *)

(** A format dict holds JSON-like values only. *)
Abbreviation format := (gmap string json).

(** A value of an info dict: a JSON-like value, or the list under ['formats']. *)
Inductive pyval : Type :=
| PJson (v : json)
| PFormats (fs : list format).

Abbreviation info := (gmap string pyval).

(** [{**a, **b}]: the keys of [b] win.  stdpp's union is left-biased. *)
Definition dict_merge {V} (a b : gmap string V) : gmap string V := b ∪ a.

(** What an extractor returns: one info dict, or the result of
    [playlist_result(entries, ...)], that is the playlist's own fields
    (['_type'] among them) and its entries. *)
Inductive extraction : Type :=
| Media (i : info)
| Playlist (meta : info) (entries : list info).

(** ** Effects *)

(** The requests the extractors make through the base class. *)
Inductive request : Type :=
| ReqLogin (username password : string)
| ReqVideoView (video_id : string)
| ReqM3u8 (url : json) (video_id : string) (part : nat)
| ReqChannel (broadcaster_id : string)
| ReqAid (bno : json) (quality : string) (pwd : option string)
| ReqStreamAssign (base cdn bno : json) (quality : string)
| ReqStation (bno bjid : json)
| ReqVods (user_id user_type : string) (page per_page : nat).

Inductive event : Type :=
| Requested (r : request)
| Warned (msg : string).

(** Exceptions.  [ExtractorError msg expected] is the class of that name;
    [LoginRequired] is the [ExtractorError] that the base class raises in
    [raise_login_required(msg, method=...)]; [DownloadFailed] is the one a
    fatal download raises; [PyException] is any other Python exception
    ([KeyError], [TypeError], [AttributeError]) by its class name. *)
Inductive error : Type :=
| ExtractorError (msg : string) (expected : bool)
| LoginRequired (msg method : string)
| DownloadFailed (r : request)
| PyException (kind : string).

(** A computation logs its events and ends in an error or a value. *)
Definition M (A : Type) : Type := list event * (error + A).

Definition ret {A} (a : A) : M A := ([], inr a).
Definition raise {A} (e : error) : M A := ([], inl e).
Definition emit (ev : event) : M unit := ([ev], inr tt).
Definition bind {A B} (k : A -> M B) (m : M A) : M B :=
  match m with
  | (tr, inl e) => (tr, inl e)
  | (tr, inr a) => let '(tr', r) := k a in (tr ++ tr', r)
  end.

#[export] Instance M_ret : MRet M := @ret.
#[export] Instance M_bind : MBind M := @bind.

Definition trace {A} (m : M A) : list event := fst m.
Definition outcome {A} (m : M A) : error + A := snd m.

(** ** The host: base-class methods and [yt_dlp.utils] helpers

    None of these is defined in the module; the extractors are verified
    for every host.
    - [fetch r] is the JSON document the request [r] yields, if the
      download and the parse succeed;
    - [m3u8_formats url video_id part] is [_extract_m3u8_formats];
    - [int_of_str] is Python's [int(s)] on a [str] ([None]: [ValueError]);
    - [url_or_none], [determine_ext], [unified_timestamp] and
      [update_url_query] are the helpers of those names ([None] for
      [update_url_query]: it raised);
    - [py_repr v] is [str(v)] for a [v] that is not a [str];
    - [login_hint method] is [self._login_hint(method=...)]. *)
Class Host : Type := {
  fetch : request -> option json;
  m3u8_formats : json -> string -> nat -> error + list format;
  int_of_str : string -> option Z;
  url_or_none : json -> option string;
  determine_ext : json -> string;
  unified_timestamp : json -> option Z;
  update_url_query : json -> json -> option json;
  py_repr : json -> string;
  login_hint : string -> string;
}.

Section Extractors.
Context `{Host}.

(** [str(v)], as an f-string formats [v]. *)
Definition py_str (v : json) : string :=
  match v with JStr s => s | _ => py_repr v end.

(** [int(v)]; [None] when it raises [TypeError], [ValueError] or
    [OverflowError]. *)
Definition py_int (v : json) : option Z :=
  match v with
  | JInt z => Some z
  | JBool b => Some (if b then 1 else 0)
  | JFloat f => int_of_float f
  | JStr s => int_of_str s
  | JNull | JList _ | JDict _ => None
  end.

(** Modelled from the spec: [int_or_none(v, scale=...)] of [yt_dlp.utils]
    is imported, not defined, by the module; the spec has durations
    "scaled from milliseconds" to seconds, and the helper's name says that
    what is no integer gives [None].  The scaling is Python's floor
    division, [int(v) // scale]. *)
Definition int_or_none (v : json) (scale : Z) : option Z :=
  (fun z => z `div` scale) <$> py_int v.

(** [self._download_json(...)]: with [fatal=False] a failed download
    yields [False], otherwise it raises. *)
Definition _download_json (fatal : bool) (r : request) : M json :=
  emit (Requested r) ;;
  match fetch r with
  | Some j => ret j
  | None => if fatal then raise (DownloadFailed r) else ret (JBool false)
  end.

(** [v.get(k)]: a method of dicts only. *)
Definition py_get (v : json) (k : string) : M json :=
  match v with
  | JDict o => ret (dict_get o k)
  | _ => raise (PyException "AttributeError")
  end.

(** [v[k]] for a string key [k]. *)
Definition py_getitem (v : json) (k : string) : M json :=
  match v with
  | JDict o =>
      match assoc k o with
      | Some x => ret x
      | None => raise (PyException "KeyError")
      end
  | _ => raise (PyException "TypeError")
  end.

(** ** [AfreecaTVIE._perform_login] (lines 105-141) *)

(** The newline of Python's ["\n"]. *)
Definition nl : string := String (ascii_of_nat 10) "".

Definition _ERRORS : gmap Z string :=
  list_to_map [
    (-4, "Your account has been suspended due to a violation of our terms and policies.");
    (-5, "https://member.afreecatv.com/app/user_delete_progress.php");
    (-6, "https://login.afreecatv.com/membership/changeMember.php");
    (-8, "Hello! AfreecaTV here." +:+ nl
         +:+ "The username you have entered belongs to " +:+ nl
         +:+ " an account that requires a legal guardian's consent. " +:+ nl
         +:+ "If you wish to use our services without restriction, " +:+ nl
         +:+ "please make sure to go through the necessary verification process.");
    (-9, "https://member.afreecatv.com/app/pop_login_block.php");
    (-11, "https://login.afreecatv.com/afreeca/second_login.php");
    (-12, "https://member.afreecatv.com/app/user_security.php");
    (0, "The username does not exist or you have entered the wrong password.");
    (-1, "The username does not exist or you have entered the wrong password.");
    (-3, "You have entered your username/password incorrectly.");
    (-7, "You cannot use your Global AfreecaTV account to access Korean AfreecaTV.");
    (-10, "Sorry for the inconvenience. " +:+ nl
          +:+ "Your account has been blocked due to an unauthorized access. " +:+ nl
          +:+ "Please contact our Help Center for assistance.");
    (-32008, "You have failed to log in. Please contact our Help Center.")
  ].

(** [_ERRORS.get(result, 'You have failed to log in.')]; [result] may be
    [None], which is no key of the table. *)
Definition errors_get (result : option Z) : string :=
  default "You have failed to log in." (result ≫= (_ERRORS !!.)).

Definition login_failure (ie_name : string) (result : option Z) : error :=
  ExtractorError
    ("Unable to login: " +:+ ie_name +:+ " said: " +:+ errors_get result) true.

(** [ie_name] is [self.IE_NAME]: the method is inherited by the live
    extractor, whose name differs. *)
Definition _perform_login (ie_name username password : string) : M unit :=
  response ← _download_json true (ReqLogin username password);
  raw ← py_get response "RESULT";
  let result := int_or_none raw 1 in
  match result with
  | Some 1 => ret tt
  | _ => raise (login_failure ie_name result)
  end.

(** ** [traverse_obj], as far as the module uses it *)

(** One string key of a path: the value under the key of a dict, and
    [None] for a missing key or for an object that is no dict. *)
Definition traverse_key (obj : json) (k : string) : json :=
  match obj with
  | JDict o => dict_get o k
  | _ => JNull
  end.

(** The path steps [{int}] and [{str}]: [isinstance] filters.  A Python
    [bool] is an [int]. *)
Definition as_int (v : json) : json :=
  match v with JInt _ | JBool _ => v | _ => JNull end.

Definition as_str (v : json) : json :=
  match v with JStr _ => v | _ => JNull end.

(** A function as a path step ([lambda _, v: ...]) branches over the
    values of a dict or the items of a list; a string, a number or [None]
    has nothing to branch over. *)
Definition branch_values (obj : json) : list json :=
  match obj with
  | JList l => l
  | JDict o => map snd o
  | _ => []
  end.

(** A dict as a path ([{'key': path, ...}]) keeps the keys whose path
    gives a value other than [None]. *)
Definition put {V} (k : string) (v : option V) (d : gmap string V) : gmap string V :=
  match v with Some x => <[k:=x]> d | None => d end.

Definition not_none (v : json) : option pyval :=
  match v with JNull => None | _ => Some (PJson v) end.

(** [v == n] for an integer literal [n], after an [{int}] filter. *)
Definition eq_int (v : json) (n : Z) : bool :=
  match v with
  | JInt z => z =? n
  | JBool b => (if b then 1 else 0) =? n
  | _ => false
  end.

(** [v == s] for a string literal [s]. *)
Definition eq_str (v : json) (s : string) : bool :=
  match v with JStr t => String.eqb t s | _ => false end.

(** ** [AfreecaTVIE._real_extract] (lines 143-208) *)

Definition partial_adult_warning : string :=
  "In accordance with local laws and regulations, underage users are "
  +:+ "restricted from watching adult content. Only content suitable for all "
  +:+ "ages will be downloaded. " +:+ login_hint "netrc".

(** Lines 171-177. *)
Definition common_info (data : json) : info :=
  put "title" (not_none (as_str (traverse_key data "title"))) $
  put "uploader" (not_none (as_str (traverse_key data "writer_nick"))) $
  put "uploader_id" (not_none (as_str (traverse_key data "bj_id"))) $
  put "duration"
    (PJson ∘ JInt <$> int_or_none (traverse_key data "total_file_duration") 1000) $
  put "thumbnail" (PJson ∘ JStr <$> url_or_none (traverse_key data "thumb")) ∅.

(** The filter [lambda _, v: url_or_none(v['file'])] of line 180: [v]
    passes when [v['file']] raises nothing and the helper's answer is
    truthy. *)
Definition usable_file (v : json) : option (list (string * json)) :=
  match v with
  | JDict o =>
      match assoc "file" o with
      | Some u =>
          match url_or_none u with
          | Some s => if String.eqb s "" then None else Some o
          | None => None
          end
      | None => None
      end
  | _ => None
  end.

Definition files (data : json) : list (list (string * json)) :=
  omap usable_file (branch_values (traverse_key data "files")).

(** Lines 181-190. *)
Definition part_formats (video_id : string) (file_num : nat) (file_url : json)
  : M (list format) :=
  if String.eqb (determine_ext file_url) "m3u8" then
    emit (Requested (ReqM3u8 file_url video_id file_num));;
    (([], m3u8_formats file_url video_id file_num) : M (list format))
  else
    mret [ ({[ "url" := file_url; "format_id" := JStr "http" ]} : format) ].

(** Line 195. *)
Definition part_title (common : info) (file_num : nat) : string :=
  match common !! "title" with
  | Some (PJson (JStr t)) => if String.eqb t "" then "Untitled" else t
  | _ => "Untitled"
  end +:+ " (part " +:+ pretty file_num +:+ ")".

(** Lines 197-200. *)
Definition file_info (file_element : list (string * json)) : info :=
  put "duration"
    (PJson ∘ JInt <$> int_or_none (dict_get file_element "duration") 1000) $
  put "timestamp"
    (PJson ∘ JInt <$> unified_timestamp (dict_get file_element "file_start")) ∅.

(** Lines 192-201: one entry. *)
Definition entry (video_id : string) (common : info) (file_num : nat)
    (file_element : list (string * json)) (formats : list format) : info :=
  dict_merge
    (<["formats" := PFormats formats]>
       (<["title" := PJson (JStr (part_title common file_num))]>
          (<["id" := PJson (py_or (dict_get file_element "file_info_key")
                              (JStr (video_id +:+ "_" +:+ pretty file_num)))]>
             common)))
    (file_info file_element).

(** Lines 178-201: the loop over [enumerate(..., start=1)]. *)
Fixpoint entries_from (video_id : string) (common : info) (file_num : nat)
    (fs : list (list (string * json))) : M (list info) :=
  match fs with
  | [] => mret []
  | file_element :: rest =>
      formats ← part_formats video_id file_num (dict_get file_element "file");
      es ← entries_from video_id common (S file_num) rest;
      mret (entry video_id common file_num file_element formats :: es)
  end.

(** Modelled from the spec: [InfoExtractor.playlist_result] is a method
    of the base class, which is not part of the module; the spec's
    PlaylistDescriptor is "{id, title, ordered/unordered sequence of
    MediaDescriptor-or-redirect}".  The id and the title are set when
    given, over the keyword fields passed along. *)
Definition playlist_result {E} (entries : E) (playlist_id : string)
    (playlist_title : option string) (multi_video : bool) (kwargs : info) : info * E :=
  let kwargs :=
    if String.eqb playlist_id "" then kwargs
    else <["id" := PJson (JStr playlist_id)]> kwargs in
  let kwargs :=
    match playlist_title with
    | Some t => if String.eqb t "" then kwargs else <["title" := PJson (JStr t)]> kwargs
    | None => kwargs
    end in
  (<["_type" := PJson (JStr (if multi_video then "multi_video" else "playlist"))]> kwargs,
   entries).

(** Lines 155-159. *)
Definition check_error_code (data : json) : M unit :=
  let error_code := as_int (traverse_key data "code") in
  if eq_int error_code (-6221) then
    raise (ExtractorError "The VOD does not exist" true)
  else if eq_int error_code (-6205) then
    raise (ExtractorError "This VOD is private" true)
  else mret tt.

(** Lines 161-169. *)
Definition check_flag (data : json) : M unit :=
  let flag := as_str (traverse_key data "flag") in
  if eq_str flag "PARTIAL_ADULT" then emit (Warned partial_adult_warning)
  else if eq_str flag "ADULT" then
    raise (LoginRequired "Only users older than 19 are able to watch this video" "netrc")
  else mret tt.

(** Lines 171-208: the info dicts of the files, and what is returned. *)
Definition assemble (video_id : string) (data : json) : M extraction :=
  let common := common_info data in
  entries ← entries_from video_id common 1 (files data);
  match entries with
  | [e] => mret (Media (<["title" := default (PJson JNull) (common !! "title")]> e))
  | _ =>
      let '(meta, es) := playlist_result entries video_id None true common in
      mret (Playlist meta es)
  end.

(** Lines 155-208: what [_real_extract] does with [data]. *)
Definition extract_data (video_id : string) (data : json) : M extraction :=
  check_error_code data;;
  check_flag data;;
  assemble video_id data.

(** The formats of one file, or the error that its manifest raised. *)
Definition formats_for (video_id : string) (file_num : nat)
    (file_element : list (string * json)) : error + list format :=
  outcome (part_formats video_id file_num (dict_get file_element "file")).

(** Every manifest among the files expands. *)
Definition manifests_ok (video_id : string) (fs : list (list (string * json))) : Prop :=
  forall (k : nat) file_element,
    fs !! k = Some file_element ->
    exists formats, formats_for video_id (S k) file_element = inr formats.

(** The info dicts of a result: the item itself, or the parts. *)
Definition entries_of (x : extraction) : list info :=
  match x with Media i => [i] | Playlist _ es => es end.

(** Lines 143-153.  [video_id] is the id the URL pattern matched. *)
Definition AfreecaTVIE_real_extract (video_id : string) : M extraction :=
  response ← _download_json true (ReqVideoView video_id);
  data ← py_getitem response "data";
  extract_data video_id data.

(** ** [AfreecaTVLiveIE._real_extract] (lines 239-308) *)

Definition _QUALITIES : list string := ["sd"; "hd"; "hd2k"; "original"].

(** Modelled from the spec: [qualities(quality_ids)] of [yt_dlp.utils] is
    imported, not defined, by the module; "Quality ranking is the tier's
    position in the fixed list".  A name that is not in the list ranks
    below all, at -1. *)
Fixpoint qualities (quality_ids : list string) (qid : string) : Z :=
  match quality_ids with
  | [] => -1
  | q :: rest =>
      if String.eqb q qid then 0
      else let r := qualities rest qid in if r <? 0 then r else r + 1
  end.

(** Lines 267-272: the access token in the answer of one tier. *)
Definition aid_of (aid_response : json) : json :=
  traverse_key (traverse_key aid_response "CHANNEL") "AID".

(** Lines 276-284: the request for the stream assignment of one tier. *)
Definition stream_request (channel_info : list (string * json)) (broadcast_no : json)
    (quality_str : string) : request :=
  ReqStreamAssign
    (py_or (dict_get channel_info "RMD") (JStr "https://livestream-manager.afreecatv.com"))
    (dict_get_default channel_info "CDN" (JStr "gcp_cdn"))
    broadcast_no quality_str.

(** Lines 287-293. *)
Definition live_format (quality_str : string) (url : json) : format :=
  {[ "format_id" := JStr quality_str;
     "url" := url;
     "ext" := JStr "mp4";
     "protocol" := JStr "m3u8";
     "quality" := JInt (qualities _QUALITIES quality_str) ]}.

(** Lines 259-293: one turn of the loop; the formats it appends. *)
Definition probe (channel_info : list (string * json)) (broadcast_no : json)
    (password : option string) (quality_str : string) : M (list format) :=
  aid_response ← _download_json false (ReqAid broadcast_no quality_str password);
  let aid := aid_of aid_response in
  if negb (truthy aid) then mret []
  else
    downloaded ← _download_json false (stream_request channel_info broadcast_no quality_str);
    view_url ← py_get (py_or downloaded (JDict [])) "view_url";
    if truthy view_url then
      match update_url_query view_url aid with
      | Some url => mret [live_format quality_str url]
      | None => raise (PyException "update_url_query")
      end
    else mret [].

(** Lines 256-293: the loop over the tiers. *)
Fixpoint probe_all (channel_info : list (string * json)) (broadcast_no : json)
    (password : option string) (tiers : list string) : M (list format) :=
  match tiers with
  | [] => mret []
  | quality_str :: rest =>
      fs ← probe channel_info broadcast_no password quality_str;
      fs' ← probe_all channel_info broadcast_no password rest;
      mret (fs ++ fs')
  end.

(** [x.get] for an [x] that is [d or {}]. *)
Definition dict_or_empty (d : json) : M (list (string * json)) :=
  match py_or d (JDict []) with
  | JDict o => mret o
  | _ => raise (PyException "AttributeError")
  end.

Definition not_live (broadcaster_id : json) : error :=
  ExtractorError
    ("Unable to extract broadcast number (" +:+ py_str broadcaster_id
     +:+ " may not be live)") true.

Definition password_needed : error :=
  ExtractorError
    "This livestream is protected by a password, use the --video-password option" true.

(** Lines 243-245: [channel_info]. *)
Definition channel_info_of (broadcaster_id : string) : M (list (string * json)) :=
  downloaded ← _download_json false (ReqChannel broadcaster_id);
  channel ← py_get (py_or downloaded (JDict [])) "CHANNEL";
  dict_or_empty channel.

(** Lines 295-298: [station_info]. *)
Definition station_info_of (broadcast_no broadcaster_id : json)
  : M (list (string * json)) :=
  downloaded ← _download_json false (ReqStation broadcast_no broadcaster_id);
  dict_or_empty downloaded.

(** Lines 300-308. *)
Definition live_info (channel_info station_info : list (string * json))
    (broadcaster_id broadcast_no : json) (formats : list format) : info :=
  {[ "id" := PJson broadcast_no;
     "title" := PJson (py_or (dict_get channel_info "TITLE")
                         (dict_get station_info "station_title"));
     "uploader" := PJson (py_or (dict_get channel_info "BJNICK")
                            (dict_get station_info "station_name"));
     "uploader_id" := PJson broadcaster_id;
     "timestamp" := PJson (from_option JInt JNull
                             (unified_timestamp (dict_get station_info "broad_start")));
     "formats" := PFormats formats;
     "is_live" := PJson (JBool true) ]}.

(** Lines 246-247: the broadcaster id and the broadcast number in use. *)
Definition broadcaster_of (channel_info : list (string * json)) (broadcaster_id : string)
  : json :=
  py_or (dict_get channel_info "BJID") (JStr broadcaster_id).

Definition broadcast_of (channel_info : list (string * json))
    (broadcast_no : option string) : json :=
  py_or (dict_get channel_info "BNO") (from_option JStr JNull broadcast_no).

(** Line 251. *)
Definition password_missing (channel_info : list (string * json))
    (password : option string) : bool :=
  eq_str (dict_get channel_info "BPWD") "Y" && bool_decide (password = None).

(** [broadcaster_id] and [broadcast_no] are the groups [id] and [bno] of
    the URL pattern, [password] is the parameter [videopassword]. *)
Definition AfreecaTVLiveIE_real_extract (broadcaster_id : string)
    (broadcast_no password : option string) : M info :=
  channel_info ← channel_info_of broadcaster_id;
  let broadcaster_id := broadcaster_of channel_info broadcaster_id in
  let broadcast_no := broadcast_of channel_info broadcast_no in
  if negb (truthy broadcast_no) then raise (not_live broadcaster_id)
  else if password_missing channel_info password then raise password_needed
  else
    formats ← probe_all channel_info broadcast_no password _QUALITIES;
    station_info ← station_info_of broadcast_no broadcaster_id;
    mret (live_info channel_info station_info broadcaster_id broadcast_no formats).

(** What a download with [fatal=False] evaluates to. *)
Definition fetched (r : request) : json := default (JBool false) (fetch r).

(** The token of a tier and the view URL of its stream assignment, as
    the responses give them. *)
Definition tier_aid (broadcast_no : json) (password : option string)
    (quality_str : string) : json :=
  aid_of (fetched (ReqAid broadcast_no quality_str password)).

Definition tier_view_url (channel_info : list (string * json)) (broadcast_no : json)
    (quality_str : string) : json :=
  traverse_key
    (py_or (fetched (stream_request channel_info broadcast_no quality_str)) (JDict []))
    "view_url".

(** A probe without success: no token, or a stream assignment (an object,
    or a failed download) without a view URL. *)
Definition tier_fails (channel_info : list (string * json)) (broadcast_no : json)
    (password : option string) (quality_str : string) : Prop :=
  truthy (tier_aid broadcast_no password quality_str) = false
  \/ exists o,
       py_or (fetched (stream_request channel_info broadcast_no quality_str)) (JDict [])
       = JDict o
       /\ truthy (dict_get o "view_url") = false.

(** ** [AfreecaTVUserIE] (lines 347-362) *)

Definition _PER_PAGE : nat := 60.

(** Modelled from the spec: [InfoExtractor.url_result] is a method of the
    base class; "each item yields a reference to the Video Resolver by
    constructed video URL and id, rather than a fully resolved
    descriptor". *)
Definition url_result (url ie_key : string) (video_id : json) : info :=
  {[ "_type" := PJson (JStr "url");
     "url" := PJson (JStr url);
     "ie_key" := PJson (JStr ie_key);
     "id" := PJson video_id ]}.

(** Lines 355-356: the body of the loop. *)
Definition item_result (item : json) : M info :=
  title_no ← py_getitem item "title_no";
  mret (url_result ("https://vod.afreecatv.com/player/" +:+ py_str title_no +:+ "/")
          "AfreecaTV" title_no).

(** [for item in v]: the items of a list, the keys of a dict, the
    characters of a string; anything else is not iterable. *)
Definition py_iter (v : json) : M (list json) :=
  match v with
  | JList l => mret l
  | JDict o => mret (map (JStr ∘ fst) o)
  | JStr s => mret (map (fun c => JStr (String c "")) (list_ascii_of_string s))
  | _ => raise (PyException "TypeError")
  end.

Fixpoint for_each {A B} (f : A -> M B) (l : list A) : M (list B) :=
  match l with
  | [] => mret []
  | x :: rest => y ← f x; ys ← for_each f rest; mret (y :: ys)
  end.

(** Lines 349-356: the page with index [page], counted from 0. *)
Definition _fetch_page (user_id user_type : string) (page : nat) : M (list info) :=
  let page := S page in
  info ← _download_json true (ReqVods user_id user_type page _PER_PAGE);
  data ← py_getitem info "data";
  items ← py_iter data;
  for_each item_result items.

(** Modelled from the spec: [OnDemandPagedList] of [yt_dlp.utils] is
    imported, not defined, by the module.  The spec: "Produces a lazy,
    restartable sequence of redirect items: repeatedly requests fixed-size
    pages (page size constant) from a listing endpoint until a page returns
    no items"; "page fetches occur on demand as the consumer advances
    through the produced sequence".  The object holds the page function
    and the page size and no other state. *)
Record OnDemandPagedList (A : Type) : Type := {
  pagefunc : nat -> M (list A);
  pagesize : nat;
}.
Arguments pagefunc {A} _ _.
Arguments pagesize {A} _.

(** Modelled from the spec: consuming the sequence from page [page] on,
    "until a page returns no items".  [fuel] bounds the number of pages
    asked for; [None] says the bound was reached. *)
Fixpoint consume_from {A} (l : OnDemandPagedList A) (fuel page : nat)
  : M (option (list A)) :=
  match fuel with
  | O => mret None
  | S fuel' =>
      items ← pagefunc l page;
      match items with
      | [] => mret (Some [])
      | _ =>
          rest ← consume_from l fuel' (S page);
          mret ((items ++.) <$> rest)
      end
  end.

Definition consume {A} (l : OnDemandPagedList A) (fuel : nat) : M (option (list A)) :=
  consume_from l fuel 0.

(** Line 360: [user_type or 'all']. *)
Definition user_type_of (slug_type : option string) : string :=
  match slug_type with
  | Some s => if String.eqb s "" then "all" else s
  | None => "all"
  end.

(** Consuming the sequence twice, each time from the start. *)
Definition consume_twice {A} (l : OnDemandPagedList A) (fuel : nat)
  : M (option (list A) * option (list A)) :=
  first ← consume l fuel;
  second ← consume l fuel;
  mret (first, second).

(** Lines 358-362.  [user_id] and [slug_type] are the groups of the URL
    pattern; no request is made before the entries are consumed. *)
Definition AfreecaTVUserIE_real_extract (user_id : string) (slug_type : option string)
  : info * OnDemandPagedList info :=
  let user_type := user_type_of slug_type in
  let entries :=
    {| pagefunc := _fetch_page user_id user_type; pagesize := _PER_PAGE |} in
  playlist_result entries user_id (Some (user_id +:+ " - " +:+ user_type)) false ∅.

End Extractors.

Arguments pagefunc {A} _ _.
Arguments pagesize {A} _.

(** ** The requests of the loops

    What the loops ask the host for, as the code orders it. *)

Section Requests.
Context `{Host}.

(** Lines 179-185: one manifest is fetched per file whose extension is
    [m3u8], under the number of its part. *)
Fixpoint manifest_requests (video_id : string) (file_num : nat)
    (fs : list (list (string * json))) : list event :=
  match fs with
  | [] => []
  | file_element :: rest =>
      (if String.eqb (determine_ext (dict_get file_element "file")) "m3u8"
       then [Requested (ReqM3u8 (dict_get file_element "file") video_id file_num)]
       else [])
      ++ manifest_requests video_id (S file_num) rest
  end.

(** Lines 267-284: the token of a tier is asked for, and the stream
    assignment after it when there is a token. *)
Definition tier_requests (channel_info : list (string * json)) (broadcast_no : json)
    (password : option string) (quality_str : string) : list event :=
  Requested (ReqAid broadcast_no quality_str password)
  :: (if truthy (tier_aid broadcast_no password quality_str)
      then [Requested (stream_request channel_info broadcast_no quality_str)]
      else []).

End Requests.

(** An exception of Python's own ([KeyError], [TypeError],
    [AttributeError]) or of a helper, and no error of the extractor. *)
Definition python_error (e : error) : Prop := exists kind, e = PyException kind.

(** [item['title_no']], when it raises nothing (line 356). *)
Definition title_no_of (item : json) : option json :=
  match item with
  | JDict o => assoc "title_no" o
  | _ => None
  end.

(** ** URL patterns

    The [_VALID_URL] of an extractor is a regular expression, which the
    base class hands to [re.match]: the match starts at the start of the
    URL and may end before its end.  The patterns are written in the
    fragment of the syntax they use, and [run] is the backtracking search of
    [re]: alternatives in order, greedy repetitions longest first, lazy ones
    shortest first.  Text is a string of bytes; the classes [\d] and [\b]
    are those of ASCII text. *)

Inductive char_class : Type :=
| Digit
| NotSlash
| NotNewline
| OneOf (chars : string).

Inductive regex : Type :=
| Lit (s : string)
| Cls (cl : char_class)
| Plus (cl : char_class)
| LazyStar (cl : char_class)
| Opt (r : regex)
| Seq (r1 r2 : regex)
| Alt (r1 r2 : regex)
| Group (name : string) (r : regex)
| WordBoundary.

Definition is_digit (c : ascii) : bool :=
  (48 <=? Z.of_N (N_of_ascii c)) && (Z.of_N (N_of_ascii c) <=? 57).

Definition is_word (c : ascii) : bool :=
  let n := Z.of_N (N_of_ascii c) in
  is_digit c || ((65 <=? n) && (n <=? 90)) || ((97 <=? n) && (n <=? 122)) || (n =? 95).

Fixpoint occurs (c : ascii) (s : string) : bool :=
  match s with
  | EmptyString => false
  | String a s' => Ascii.eqb a c || occurs c s'
  end.

Definition in_class (cl : char_class) (c : ascii) : bool :=
  match cl with
  | Digit => is_digit c
  | NotSlash => negb (Ascii.eqb c "/")
  | NotNewline => negb (Ascii.eqb c (ascii_of_nat 10))
  | OneOf chars => occurs c chars
  end.

(** The groups that have matched, by name. *)
Abbreviation captures := (gmap string string).

(** What is left to match: the character before the position, the text
    from the position on, the groups so far. *)
Abbreviation continuation :=
  (option ascii -> string -> captures -> option captures).

(** A literal, character by character. *)
Fixpoint lit (l : string) (prev : option ascii) (s : string)
  : option (option ascii * string) :=
  match l, s with
  | EmptyString, _ => Some (prev, s)
  | String a l', String b s' => if Ascii.eqb a b then lit l' (Some b) s' else None
  | String _ _, EmptyString => None
  end.

(** [cl*], greedy: as many characters as the class allows, then fewer. *)
Fixpoint greedy_star (cl : char_class) (prev : option ascii) (s : string)
    (caps : captures) (k : continuation) : option captures :=
  match s with
  | String c s' =>
      if in_class cl c then
        match greedy_star cl (Some c) s' caps k with
        | Some found => Some found
        | None => k prev s caps
        end
      else k prev s caps
  | EmptyString => k prev s caps
  end.

(** [cl*?], lazy: no character, then more. *)
Fixpoint lazy_star (cl : char_class) (prev : option ascii) (s : string)
    (caps : captures) (k : continuation) : option captures :=
  match k prev s caps with
  | Some found => Some found
  | None =>
      match s with
      | String c s' => if in_class cl c then lazy_star cl (Some c) s' caps k else None
      | EmptyString => None
      end
  end.

(** The first [n] characters. *)
Fixpoint take_chars (n : nat) (s : string) : string :=
  match n, s with
  | S n', String c s' => String c (take_chars n' s')
  | _, _ => EmptyString
  end.

(** The text between a position and a later one. *)
Definition taken (s s' : string) : string :=
  take_chars (String.length s - String.length s') s.

Definition word_before (prev : option ascii) : bool :=
  match prev with Some c => is_word c | None => false end.

Definition word_at (s : string) : bool :=
  match s with String c _ => is_word c | EmptyString => false end.

Fixpoint run (r : regex) (prev : option ascii) (s : string) (caps : captures)
    (k : continuation) : option captures :=
  match r with
  | Lit l =>
      match lit l prev s with
      | Some (prev', s') => k prev' s' caps
      | None => None
      end
  | Cls cl =>
      match s with
      | String c s' => if in_class cl c then k (Some c) s' caps else None
      | EmptyString => None
      end
  | Plus cl =>
      match s with
      | String c s' => if in_class cl c then greedy_star cl (Some c) s' caps k else None
      | EmptyString => None
      end
  | LazyStar cl => lazy_star cl prev s caps k
  | Opt r' =>
      match run r' prev s caps k with
      | Some found => Some found
      | None => k prev s caps
      end
  | Seq r1 r2 => run r1 prev s caps (fun prev' s' caps' => run r2 prev' s' caps' k)
  | Alt r1 r2 =>
      match run r1 prev s caps k with
      | Some found => Some found
      | None => run r2 prev s caps k
      end
  | Group name r' =>
      run r' prev s caps (fun prev' s' caps' => k prev' s' (<[name := taken s s']> caps'))
  | WordBoundary =>
      if xorb (word_before prev) (word_at s) then k prev s caps else None
  end.

(** [re.match(pattern, url)]: the groups, when the pattern matches. *)
Definition re_match (pattern : regex) (url : string) : option captures :=
  run pattern None url ∅ (fun _ _ caps => Some caps).

(** A sequence and a choice of several parts. *)
Definition seq_of (rs : list regex) : regex := foldr Seq (Lit "") rs.

(** Lines 22-33, written with [(?x)]: blanks in the pattern do not count. *)
Definition AfreecaTVIE_VALID_URL : regex :=
  seq_of
    [Lit "http"; Opt (Lit "s"); Lit "://";
     Alt
       (seq_of
          [Opt (seq_of [Alt (Lit "live") (Alt (Lit "afbbs") (Lit "www")); Lit "."]);
           Lit "afreeca"; Opt (Lit "tv"); Lit ".com";
           Opt (seq_of [Lit ":"; Plus Digit]);
           Alt
             (seq_of [Lit "/app/"; Alt (Lit "index") (Lit "read_ucc_bbs"); Lit ".cgi"])
             (seq_of [Lit "/player/"; Cls (OneOf "Pp"); Lit "layer.";
                      Alt (Lit "swf") (Lit "html")]);
           Lit "?"; LazyStar NotNewline; WordBoundary; Lit "nTitleNo="])
       (seq_of
          [Lit "vod.afreecatv.com/";
           Group "1" (Alt (Lit "PLAYER/STATION") (Lit "player"));
           Lit "/"]);
     Group "id" (Plus Digit)].

(** Line 214. *)
Definition AfreecaTVLiveIE_VALID_URL : regex :=
  seq_of
    [Lit "http"; Opt (Lit "s"); Lit "://play.afreeca"; Opt (Lit "tv"); Lit ".com/";
     Group "id" (Plus NotSlash);
     Opt (seq_of [Lit "/"; Group "bno" (Plus Digit)])].

(** Line 313. *)
Definition AfreecaTVUserIE_VALID_URL : regex :=
  seq_of
    [Lit "http"; Opt (Lit "s"); Lit "://bj.afreeca"; Opt (Lit "tv"); Lit ".com/";
     Group "id" (Plus NotSlash);
     Lit "/vods"; Opt (Lit "/");
     Opt (Group "slug_type" (Plus NotSlash))].

(** [self._match_id(url)]: the group [id]. *)
Definition _match_id (pattern : regex) (url : string) : option string :=
  caps ← re_match pattern url; caps !! "id".

(** ** URLs of the site *)

(** Every character of a text passes a test. *)
Fixpoint every (p : ascii -> bool) (s : string) : bool :=
  match s with
  | EmptyString => true
  | String c s' => p c && every p s'
  end.

(** What may follow a number in a URL for the number to end there: the
    end of the text, or an ASCII character that is no digit.  (Beyond
    ASCII, [\d] also accepts the digits of other scripts, which the bytes
    of a text do not tell apart.) *)
Definition ends_number (rest : string) : bool :=
  match rest with
  | EmptyString => true
  | String c _ => (Z.of_N (N_of_ascii c) <? 128) && negb (is_digit c)
  end.

(** What may follow a path segment for the segment to end there: the end
    of the text, or a slash. *)
Definition ends_segment (rest : string) : bool :=
  match rest with
  | EmptyString => true
  | String c _ => Ascii.eqb c "/"
  end.

(** The addresses of a live channel, of the listing of a user and of the
    player of a video, with or without TLS and under either name of the
    site. *)
Definition site_url (secure : bool) (host : string) (tv : bool) (path : string)
  : string :=
  "http" +:+ (if secure then "s" else "") +:+ "://" +:+ host +:+ ".afreeca"
  +:+ (if tv then "tv" else "") +:+ ".com/" +:+ path.

Definition live_url (secure tv : bool) (path : string) : string :=
  site_url secure "play" tv path.

Definition user_url (secure tv : bool) (path : string) : string :=
  site_url secure "bj" tv path.

Definition player_url (secure upper : bool) (path : string) : string :=
  "http" +:+ (if secure then "s" else "") +:+ "://vod.afreecatv.com/"
  +:+ (if upper then "PLAYER/STATION" else "player") +:+ "/" +:+ path.

(** ** The extractors, from the URL

    [_real_extract(self, url)] starts by reading the groups of the URL
    (lines 144, 240 and 359).  The base class calls it for a URL that
    matches the pattern only; [None] stands for a URL that does not. *)

Section FromURL.
Context `{Host}.

Definition AfreecaTVIE_extract (url : string) : option (M extraction) :=
  video_id ← _match_id AfreecaTVIE_VALID_URL url;
  Some (AfreecaTVIE_real_extract video_id).

Definition AfreecaTVLiveIE_extract (url : string) (password : option string)
  : option (M info) :=
  caps ← re_match AfreecaTVLiveIE_VALID_URL url;
  broadcaster_id ← caps !! "id";
  Some (AfreecaTVLiveIE_real_extract broadcaster_id (caps !! "bno") password).

Definition AfreecaTVUserIE_extract (url : string)
  : option (info * OnDemandPagedList info) :=
  caps ← re_match AfreecaTVUserIE_VALID_URL url;
  user_id ← caps !! "id";
  Some (AfreecaTVUserIE_real_extract user_id (caps !! "slug_type")).

End FromURL.

(** ** A concrete host

    The properties below hold for every host.  Their instances at concrete
    inputs are evaluated on this one: its helpers follow those of
    [yt_dlp.utils] on the inputs used here, and its responses are given
    by a table. *)

Definition digit (c : ascii) : option Z :=
  let n := Z.of_N (N_of_ascii c) - 48 in
  if (0 <=? n) && (n <=? 9) then Some n else None.

Fixpoint digits (acc : Z) (l : list ascii) : option Z :=
  match l with
  | [] => Some acc
  | c :: rest => d ← digit c; digits (10 * acc + d) rest
  end.

(** [int(s)] for an optional minus sign and decimal digits. *)
Definition decimal (s : string) : option Z :=
  match list_ascii_of_string s with
  | [] => None
  | ["-"%char] => None
  | "-"%char :: l => Z.opp <$> digits 0 l
  | l => digits 0 l
  end.

Fixpoint has_prefix (p s : string) : bool :=
  match p, s with
  | EmptyString, _ => true
  | String a p', String b s' => Ascii.eqb a b && has_prefix p' s'
  | String _ _, EmptyString => false
  end.

Definition has_suffix (p s : string) : bool :=
  has_prefix (String.rev p) (String.rev s).

(** [url_or_none] on plain http(s) addresses: they are returned, and
    what is no string gives [None]. *)
Definition http_url_or_none (v : json) : option string :=
  match v with
  | JStr s => if has_prefix "http://" s || has_prefix "https://" s then Some s else None
  | _ => None
  end.

Definition ext_of (v : json) : string :=
  match v with
  | JStr s =>
      if has_suffix ".m3u8" s then "m3u8"
      else if has_suffix ".mp4" s then "mp4"
      else "unknown_video"
  | _ => "unknown_video"
  end.

(** Days from 1970-01-01 to a date of the proleptic Gregorian calendar. *)
Definition days_from_civil (y m d : Z) : Z :=
  let y := if m <=? 2 then y - 1 else y in
  let era := y `div` 400 in
  let yoe := y - era * 400 in
  let doy := (153 * (m + (if 2 <? m then -3 else 9)) + 2) `div` 5 + d - 1 in
  let doe := yoe * 365 + yoe `div` 4 - yoe `div` 100 + doy in
  era * 146097 + doe - 719468.

(** [unified_timestamp] is a parser of date strings: what is no string
    gives [None], and a date written [YYYY-MM-DD HH:MM:SS] gives its UTC
    epoch seconds. *)
Definition date_timestamp (v : json) : option Z :=
  match v with
  | JStr s =>
      match list_ascii_of_string s with
      | [y1; y2; y3; y4; "-"; m1; m2; "-"; d1; d2; " "; h1; h2; ":"; n1; n2; ":"; s1; s2]%char =>
          y ← digits 0 [y1; y2; y3; y4];
          m ← digits 0 [m1; m2];
          d ← digits 0 [d1; d2];
          h ← digits 0 [h1; h2];
          n ← digits 0 [n1; n2];
          sec ← digits 0 [s1; s2];
          if (1 <=? m) && (m <=? 12) && (1 <=? d) && (d <=? 31)
             && (h <? 24) && (n <? 60) && (sec <? 60)
          then Some (days_from_civil y m d * 86400 + h * 3600 + n * 60 + sec)
          else None
      | _ => None
      end
  | _ => None
  end.

(** [update_url_query(url, {'aid': aid})] on an address without a query. *)
Definition add_aid (url aid : json) : option json :=
  match url, aid with
  | JStr u, JStr a => Some (JStr (u +:+ "?aid=" +:+ a))
  | _, _ => None
  end.

Definition hls_variant (url : json) : format :=
  {[ "url" := url; "format_id" := JStr "hls-0"; "ext" := JStr "mp4" ]}.

Definition table_host (responses : request -> option json) : Host :=
  {| fetch := responses;
     m3u8_formats := fun url _ _ => inr [hls_variant url];
     int_of_str := decimal;
     url_or_none := http_url_or_none;
     determine_ext := ext_of;
     unified_timestamp := date_timestamp;
     update_url_query := add_aid;
     py_repr := fun v => match v with JInt z => pretty z | _ => "" end;
     login_hint := fun method => "Use --" +:+ method +:+ " to provide account credentials" |}.

(** ** Sample responses

    The responses and tables at which the properties below are
    instantiated. *)

(** The log-in endpoint answers with the result [code]. *)
Definition login_reply (code : json) (r : request) : option json :=
  match r with
  | ReqLogin _ _ => Some (JDict [("RESULT", code)])
  | _ => None
  end.

(** Every download fails. *)
Definition no_responses (r : request) : option json := None.

(** View responses with the two error codes. *)
Definition missing_vod : json :=
  JDict [("code", JInt (-6221));
         ("files", JList [JDict [("file", JStr "https://vod.afreecatv.com/a.m3u8")]])].

Definition private_vod : json :=
  JDict [("code", JInt (-6205)); ("flag", JStr "ADULT")].

(** A file served directly, and one behind an HLS manifest. *)
Definition first_file : list (string * json) :=
  [("file", JStr "https://vod.afreecatv.com/a.mp4");
   ("file_info_key", JStr "20240325_ACBC028E_259970062_1");
   ("duration", JInt 13629000);
   ("file_start", JStr "2024-03-25 17:55:19")].

Definition second_file : list (string * json) :=
  [("file", JStr "https://vod.afreecatv.com/b.m3u8");
   ("duration", JInt 583999)].

(** View responses: of the two file objects of the first only one has a
    resolvable URL; the second response has two such files. *)
Definition one_file_vod : json :=
  JDict [("title", JStr "Evening stream");
         ("writer_nick", JStr "BJ");
         ("bj_id", JStr "tjrdbs999");
         ("total_file_duration", JInt 13629000);
         ("thumb", JStr "https://videoimg.afreecatv.com/a.jpg");
         ("files", JList [JDict first_file; JDict [("file", JStr "no address")]])].

Definition two_file_vod : json :=
  JDict [("title", JStr "Evening stream");
         ("files", JList [JDict first_file; JNull; JDict second_file])].

(** The same without a title. *)
Definition untitled_one_file : json :=
  JDict [("bj_id", JStr "orexxs"); ("files", JList [JDict first_file])].

Definition untitled_two_files : json :=
  JDict [("files", JList [JDict first_file; JDict second_file])].

(** Responses of a live channel: [hd] has a token and a view URL, [sd]
    a token but no view URL, the other tiers no token. *)
Definition live_channel (bpwd : string) : json :=
  JDict [("CHANNEL",
          JDict [("BJID", JStr "pyh3646"); ("BNO", JStr "237852185");
                 ("BPWD", JStr bpwd); ("TITLE", JStr "Uruguay tonight");
                 ("BJNICK", JStr "JINU")])].

Definition token_reply (token : string) : json :=
  JDict [("CHANNEL", JDict [("AID", JStr token)])].

Definition station_reply (broad_start : string) : json :=
  JDict [("station_title", JStr "JINU station");
         ("station_name", JStr "Jinwoo");
         ("broad_start", JStr broad_start)].

Definition live_table (bpwd broad_start : string) (r : request) : option json :=
  match r with
  | ReqChannel _ => Some (live_channel bpwd)
  | ReqAid _ q _ =>
      if String.eqb q "hd" then Some (token_reply "token-hd")
      else if String.eqb q "sd" then Some (token_reply "token-sd")
      else None
  | ReqStreamAssign _ _ _ q =>
      if String.eqb q "hd" then
        Some (JDict [("view_url", JStr "https://live-global-cdn.afreecatv.com/hd.m3u8")])
      else Some (JDict [("cdn_type", JStr "gcp_cdn")])
  | ReqStation _ _ => Some (station_reply broad_start)
  | _ => None
  end.

(** A channel whose tiers give no token, and no answer at all. *)
Definition silent_table (bpwd : string) (r : request) : option json :=
  match r with
  | ReqChannel _ => Some (live_channel bpwd)
  | _ => None
  end.

(** A channel without a title of its own: the station's title is used. *)
Definition untitled_channel_table (r : request) : option json :=
  match r with
  | ReqChannel _ =>
      Some (JDict [("CHANNEL", JDict [("BNO", JInt 237852185); ("TITLE", JStr "");
                                      ("BJNICK", JStr "JINU")])])
  | ReqStation _ _ => Some (station_reply "2021-12-28 03:18:15")
  | _ => None
  end.

(** C8 as stated has the start timestamp taken from the channel response
    when present there.  Were it so, the timestamp of a resolution would be
    given by the channel information (and the host's date helper) alone
    whenever that information has the field, however presence is read
    ([present]) and however the value is derived ([f]). *)
Definition timestamp_from_channel : Prop :=
  exists (present : list (string * json) -> bool)
         (f : (json -> option Z) -> list (string * json) -> option pyval),
    (exists ci, present ci = true)
    /\ forall (H : Host) broadcaster_id broadcast_no password ci i,
         outcome (channel_info_of broadcaster_id) = inr ci ->
         present ci = true ->
         outcome (AfreecaTVLiveIE_real_extract broadcaster_id broadcast_no password)
         = inr i ->
         i !! "timestamp" = f unified_timestamp ci.

(** A channel with the information [ci], whose station status gives the
    start [broad_start]; no tier answers. *)
Definition station_table (ci : list (string * json)) (broad_start : string)
    (r : request) : option json :=
  match r with
  | ReqChannel _ => Some (JDict [("CHANNEL", JDict ci)])
  | ReqStation _ _ => Some (station_reply broad_start)
  | _ => None
  end.

(** A view response with one file, whose start is [file_start]. *)
Definition dated_vod (file_start : json) : json :=
  JDict [("title", JStr "Joker Among Us");
         ("total_file_duration", JInt 35998000);
         ("files",
          JList [JDict [("file", JStr "https://vod.afreecatv.com/a.mp4");
                        ("duration", JInt 17999999);
                        ("file_start", file_start)]])].

(** A response that lists two files with addresses, the second one marked
    as adult; [flag] is the content flag of the response, if any. *)
Definition rated_files : json :=
  JList [JDict [("file", JStr "https://vod.afreecatv.com/all_ages.mp4")];
         JDict [("file", JStr "https://vod.afreecatv.com/adults_only.mp4");
                ("flag", JStr "ADULT")]].

Definition rated_vod (flag : list (string * json)) : json :=
  JDict (flag ++ [("title", JStr "Gangnam"); ("files", rated_files)]).

(** A user with two videos: the first page has them, the second is empty. *)
Definition listing_table (r : request) : option json :=
  match r with
  | ReqVods "ryuryu24" "all" 1 60 =>
      Some (JDict [("data", JList [JDict [("title_no", JInt 121155561)];
                                   JDict [("title_no", JInt 119630771)]])])
  | ReqVods _ _ _ _ => Some (JDict [("data", JList [])])
  | _ => None
  end.

(** The view endpoint answers with [data] under the key of that name. *)
Definition view_table (data : json) (r : request) : option json :=
  match r with
  | ReqVideoView _ => Some (JDict [("data", data)])
  | _ => None
  end.

(** * Properties *)

(** The dates of the [_TESTS] entries are those of their timestamps. *)
Example date_timestamp_tests :
  date_timestamp (JStr "2024-04-06 12:25:43") = Some 1712406343
  /\ date_timestamp (JStr "2021-12-28 03:18:15") = Some 1640661495
  /\ date_timestamp (JInt 1712406343000) = None.
Proof. repeat split; reflexivity. Qed.

(** ** Running computations *)

Lemma bind_run {A B} (m : M A) (k : A -> M B) tr a :
  m = (tr, inr a) -> m ≫= k = (tr ++ trace (k a), outcome (k a)).
Proof. intros ->. unfold mbind, M_bind, bind, trace, outcome. by destruct (k a). Qed.

Lemma bind_fail {A B} (m : M A) (k : A -> M B) tr e :
  m = (tr, inl e) -> m ≫= k = (tr, inl e).
Proof. by intros ->. Qed.

Lemma outcome_bind {A B} (m : M A) (k : A -> M B) :
  outcome (m ≫= k) =
  match outcome m with inl e => inl e | inr a => outcome (k a) end.
Proof.
  destruct m as [tr [e|a]]; [done|].
  by rewrite (bind_run _ k tr a eq_refl).
Qed.

Lemma trace_bind {A B} (m : M A) (k : A -> M B) :
  trace (m ≫= k) =
  match outcome m with inl _ => trace m | inr a => trace m ++ trace (k a) end.
Proof.
  destruct m as [tr [e|a]]; [done|].
  by rewrite (bind_run _ k tr a eq_refl).
Qed.

Lemma ret_bind {A B} (a : A) (k : A -> M B) : ret a ≫= k = k a.
Proof. unfold mbind, M_bind, bind, ret. by destruct (k a). Qed.

Lemma mret_bind {A B} (a : A) (k : A -> M B) : mret a ≫= k = k a.
Proof. apply ret_bind. Qed.

Lemma raise_bind {A B} (e : error) (k : A -> M B) : raise e ≫= k = raise e.
Proof. done. Qed.

Lemma emit_bind {B} (ev : event) (k : unit -> M B) :
  emit ev ≫= k = (ev :: trace (k tt), outcome (k tt)).
Proof. unfold mbind, M_bind, bind, emit, trace, outcome. by destruct (k tt). Qed.

Lemma bind_assoc_M {A B C} (m : M A) (f : A -> M B) (g : B -> M C) :
  (m ≫= f) ≫= g = m ≫= (fun a => f a ≫= g).
Proof.
  destruct m as [tr [e|a]]; [done|].
  unfold mbind, M_bind, bind.
  destruct (f a) as [tr' [e'|b]]; [done|].
  destruct (g b) as [tr'' r]. by rewrite app_assoc.
Qed.

Lemma run_eta {A} (m : M A) : m = (trace m, outcome m).
Proof. by destruct m. Qed.

Ltac run :=
  repeat first
    [ rewrite ret_bind | rewrite mret_bind | rewrite raise_bind | rewrite emit_bind ].

Lemma download_found `{Host} fatal r j :
  fetch r = Some j -> _download_json fatal r = ([Requested r], inr j).
Proof. intros Hr. unfold _download_json. rewrite Hr. by run. Qed.

Lemma download_soft `{Host} r :
  _download_json false r = ([Requested r], inr (default (JBool false) (fetch r))).
Proof. unfold _download_json. run. by destruct (fetch r). Qed.

(** ** The Authenticator *)

(** C4.  Whenever the log-in request is answered by a JSON object, with
    [result] the integer read from its field [RESULT]: the method returns
    nothing, raising no error, when [result] is 1; for any other [result]
    it raises an expected [ExtractorError] whose text ends in the message
    [_ERRORS.get(result, 'You have failed to log in.')], which is the
    table's message for a code of the table and the generic message for
    every code that is not in it (and for a result that is no number). *)
Theorem perform_login_outcome `{Host} ie_name username password o :
  fetch (ReqLogin username password) = Some (JDict o) ->
  let result := int_or_none (dict_get o "RESULT") 1 in
  (result = Some 1 ->
     outcome (_perform_login ie_name username password) = inr tt)
  /\ (result <> Some 1 ->
        exists message,
          outcome (_perform_login ie_name username password)
          = inl (ExtractorError
                   ("Unable to login: " +:+ ie_name +:+ " said: " +:+ message) true)
          /\ (forall code text,
                 result = Some code -> _ERRORS !! code = Some text -> message = text)
          /\ ((forall code, result = Some code -> _ERRORS !! code = None) ->
                message = "You have failed to log in.")).
Proof.
  intros Hfetch result. unfold _perform_login.
  rewrite (bind_run _ _ _ _ (download_found true _ _ Hfetch)).
  cbn [outcome snd py_get]. run. fold result. split.
  - by intros ->.
  - intros Hne. exists (errors_get result). split; [|split].
    + destruct result as [code|]; [|done].
      by destruct code as [|[]|].
    + intros code text -> Hcode.
      change (default "You have failed to log in." (_ERRORS !! code) = text).
      by rewrite Hcode.
    + intros Hnone. destruct result as [code|]; [|done].
      change (default "You have failed to log in." (_ERRORS !! code) = "You have failed to log in.").
      by rewrite (Hnone code eq_refl).
Qed.

(** A suspended account (code -4) and a code that the table lacks. *)
Lemma perform_login_outcome_witness :
  outcome (_perform_login (H := table_host (login_reply (JInt 1))) "afreecatv" "user" "secret")
  = inr tt
  /\ (exists message,
        outcome (_perform_login (H := table_host (login_reply (JInt (-4))))
                   "afreecatv" "user" "secret")
        = inl (ExtractorError ("Unable to login: afreecatv said: " +:+ message) true)
        /\ message
           = "Your account has been suspended due to a violation of our terms and policies.")
  /\ (exists message,
        outcome (_perform_login (H := table_host (login_reply (JStr "-77")))
                   "afreecatv:live" "user" "secret")
        = inl (ExtractorError ("Unable to login: afreecatv:live said: " +:+ message) true)
        /\ message = "You have failed to log in.").
Proof.
  split; [|split].
  - apply (perform_login_outcome (H := table_host (login_reply (JInt 1)))
             "afreecatv" "user" "secret" _ eq_refl).
    reflexivity.
  - destruct (perform_login_outcome (H := table_host (login_reply (JInt (-4))))
                "afreecatv" "user" "secret" _ eq_refl) as [_ Hfail].
    destruct Hfail as (message & Hrun & Htable & _); [discriminate|].
    exists message. split; [exact Hrun|].
    apply (Htable (-4)); reflexivity.
  - destruct (perform_login_outcome (H := table_host (login_reply (JStr "-77")))
                "afreecatv:live" "user" "secret" _ eq_refl) as [_ Hfail].
    destruct Hfail as (message & Hrun & _ & Hgeneric); [discriminate|].
    exists message. split; [exact Hrun|].
    apply Hgeneric. intros code Hcode. injection Hcode as <-. reflexivity.
Defined.

(** ** The Video Resolver *)

Lemma lookup_put {V} (k k' : string) (v : option V) (d : gmap string V) :
  put k v d !! k' =
  match v with
  | Some x => if decide (k = k') then Some x else d !! k'
  | None => d !! k'
  end.
Proof.
  destruct v as [x|]; [|done]. cbn. rewrite lookup_insert. by case_decide.
Qed.

Lemma common_info_title `{Host} data :
  common_info data !! "title" = not_none (as_str (traverse_key data "title")).
Proof.
  unfold common_info. rewrite lookup_put.
  destruct (not_none (as_str (traverse_key data "title"))); [done|].
  rewrite !lookup_put.
  repeat match goal with |- context [match ?v with _ => _ end] => destruct v end;
    by rewrite ?lookup_empty.
Qed.

Lemma file_info_lookup `{Host} fe k :
  file_info fe !! k =
  if decide (k = "duration") then
    PJson ∘ JInt <$> int_or_none (dict_get fe "duration") 1000
  else if decide (k = "timestamp") then
    PJson ∘ JInt <$> unified_timestamp (dict_get fe "file_start")
  else None.
Proof.
  unfold file_info. rewrite !lookup_put, lookup_empty.
  destruct (int_or_none _ _), (unified_timestamp _); cbn;
    repeat case_decide; congruence.
Qed.

Lemma lookup_dict_merge {V} (a b : gmap string V) k :
  dict_merge a b !! k = match b !! k with Some v => Some v | None => a !! k end.
Proof.
  unfold dict_merge. rewrite lookup_union.
  by destruct (b !! k), (a !! k).
Qed.

Lemma entry_title `{Host} video_id common n fe formats :
  entry video_id common n fe formats !! "title"
  = Some (PJson (JStr (part_title common n))).
Proof.
  unfold entry. rewrite lookup_dict_merge, file_info_lookup.
  repeat case_decide; try discriminate.
  rewrite lookup_insert_ne by discriminate. by rewrite lookup_insert_eq.
Qed.

Lemma entry_formats `{Host} video_id common n fe formats :
  entry video_id common n fe formats !! "formats" = Some (PFormats formats).
Proof.
  unfold entry. rewrite lookup_dict_merge, file_info_lookup.
  repeat case_decide; try discriminate. by rewrite lookup_insert_eq.
Qed.

(** The loop yields one entry per file, in order, numbered from [n]. *)
Lemma entries_from_inr `{Host} video_id common fs :
  forall (n : nat) es,
    outcome (entries_from video_id common n fs) = inr es ->
    length es = length fs
    /\ forall (k : nat) fe, fs !! k = Some fe ->
         exists formats,
           formats_for video_id (n + k) fe = inr formats
           /\ es !! k = Some (entry video_id common (n + k)%nat fe formats).
Proof.
  induction fs as [|fe0 fs IH]; intros n es Hrun.
  - cbn in Hrun. injection Hrun as <-. split; [done|]. intros k fe Hk. done.
  - cbn [entries_from] in Hrun. rewrite outcome_bind in Hrun.
    destruct (outcome (part_formats _ _ _)) as [e|formats0] eqn:Hf; [done|].
    rewrite outcome_bind in Hrun.
    destruct (outcome (entries_from _ _ (S n) fs)) as [e|es'] eqn:Hrest; [done|].
    cbn in Hrun. injection Hrun as <-.
    destruct (IH _ _ Hrest) as [Hlen Hk]. split; [cbn; by rewrite Hlen|].
    intros [|k] fe Hfe.
    + injection Hfe as <-. exists formats0.
      replace (n + 0)%nat with n by lia. done.
    + destruct (Hk k fe Hfe) as (formats & Hfor & Hes).
      exists formats. replace (n + S k)%nat with (S n + k)%nat by lia. done.
Qed.

(** The loop ends in a list of entries when every manifest expands. *)
Lemma entries_from_total `{Host} video_id common fs :
  forall n : nat,
    (forall (k : nat) fe, fs !! k = Some fe ->
       exists formats, formats_for video_id (n + k) fe = inr formats) ->
    exists es, outcome (entries_from video_id common n fs) = inr es.
Proof.
  induction fs as [|fe0 fs IH]; intros n Hok.
  - by exists [].
  - destruct (Hok 0%nat fe0 eq_refl) as [formats0 Hf].
    replace (n + 0)%nat with n in Hf by lia.
    destruct (IH (S n)) as [es' Hrest].
    { intros k fe Hfe. destruct (Hok (S k) fe Hfe) as [formats Hfor].
      exists formats. by replace (S n + k)%nat with (n + S k)%nat by lia. }
    exists (entry video_id common n fe0 formats0 :: es').
    cbn [entries_from]. rewrite outcome_bind. unfold formats_for in Hf. rewrite Hf.
    rewrite outcome_bind, Hrest. done.
Qed.

Lemma check_flag_trace `{Host} data :
  outcome (check_flag data) = inr tt ->
  check_flag data = (trace (check_flag data), inr tt).
Proof. intros Hr. rewrite <- Hr. apply run_eta. Qed.

(** A response that passes both checks is handed to [assemble]. *)
Lemma extract_data_passed `{Host} video_id data :
  outcome (check_error_code data) = inr tt ->
  outcome (check_flag data) = inr tt ->
  extract_data video_id data
  = (trace (check_flag data) ++ trace (assemble video_id data),
     outcome (assemble video_id data)).
Proof.
  intros Hcode Hflag. unfold extract_data.
  assert (check_error_code data = ([], inr tt)) as ->.
  { revert Hcode. unfold check_error_code.
    by repeat match goal with |- context [if ?b then _ else _] => destruct b end. }
  rewrite (bind_run _ _ [] tt eq_refl). cbn [app trace outcome fst snd].
  rewrite (bind_run _ _ _ tt (check_flag_trace _ Hflag)). done.
Qed.

(** Whatever is returned comes out of [assemble]. *)
Lemma extract_data_inr `{Host} video_id data x :
  outcome (extract_data video_id data) = inr x ->
  outcome (assemble video_id data) = inr x.
Proof.
  unfold extract_data. rewrite !outcome_bind.
  destruct (outcome (check_error_code data)); [done|].
  by destruct (outcome (check_flag data)).
Qed.

(** The shape of what [assemble] returns. *)
Lemma assemble_inr `{Host} video_id data x :
  outcome (assemble video_id data) = inr x ->
  exists es,
    outcome (entries_from video_id (common_info data) 1 (files data)) = inr es
    /\ x = match es with
           | [e] => Media (<["title" := default (PJson JNull)
                                          (common_info data !! "title")]> e)
           | _ => Playlist (<["_type" := PJson (JStr "multi_video")]>
                              (if String.eqb video_id "" then common_info data
                               else <["id" := PJson (JStr video_id)]> (common_info data)))
                    es
           end.
Proof.
  unfold assemble. rewrite outcome_bind.
  destruct (outcome (entries_from _ _ _ _)) as [e|es]; [done|].
  intros Hx. exists es. split; [done|].
  destruct es as [|e [|e' es]]; cbn in Hx; by injection Hx as <-.
Qed.

Lemma part_title_named `{Host} data t (n : nat) :
  traverse_key data "title" = JStr t -> t <> "" ->
  part_title (common_info data) n = t +:+ " (part " +:+ pretty n +:+ ")".
Proof.
  intros Ht Hne. unfold part_title. rewrite common_info_title, Ht. cbn.
  destruct (String.eqb_spec t ""); [done|]. done.
Qed.

Lemma part_title_untitled `{Host} data (n : nat) :
  as_str (traverse_key data "title") = JNull ->
  part_title (common_info data) n = "Untitled (part " +:+ pretty n +:+ ")".
Proof. intros Ht. unfold part_title. by rewrite common_info_title, Ht. Qed.

Lemma single_title `{Host} data :
  default (PJson JNull) (common_info data !! "title")
  = PJson (as_str (traverse_key data "title")).
Proof.
  rewrite common_info_title. by destruct (traverse_key data "title").
Qed.

(** What is returned, by the number of usable files. *)
Lemma extract_data_shape `{Host} video_id data x :
  outcome (extract_data video_id data) = inr x ->
  exists es,
    length es = length (files data)
    /\ (forall (k : nat) fe, files data !! k = Some fe ->
          exists formats,
            formats_for video_id (S k) fe = inr formats
            /\ es !! k = Some (entry video_id (common_info data) (S k) fe formats))
    /\ ((exists e, es = [e]
           /\ x = Media (<["title" := PJson (as_str (traverse_key data "title"))]> e))
        \/ (length es <> 1%nat /\ exists meta, x = Playlist meta es)).
Proof.
  intros Hx. apply extract_data_inr, assemble_inr in Hx as (es & Hes & ->).
  apply entries_from_inr in Hes as [Hlen Hk].
  exists es. split; [done|]. split; [exact Hk|].
  destruct es as [|e [|e' es]].
  - right. split; [done|]. by eexists.
  - left. exists e. by rewrite single_title.
  - right. split; [done|]. by eexists.
Qed.

Lemma extract_data_total `{Host} video_id data :
  outcome (check_error_code data) = inr tt ->
  outcome (check_flag data) = inr tt ->
  manifests_ok video_id (files data) ->
  exists x, outcome (extract_data video_id data) = inr x.
Proof.
  intros Hcode Hflag Hok. rewrite (extract_data_passed _ _ Hcode Hflag).
  cbn [outcome snd]. unfold assemble. rewrite outcome_bind.
  destruct (entries_from_total video_id (common_info data) (files data) 1 Hok)
    as [es ->].
  destruct es as [|e [|e' es]]; by eexists.
Qed.

(** The extractor hands the field [data] of the answer to [extract_data]. *)
Lemma real_extract_data `{Host} video_id o data :
  fetch (ReqVideoView video_id) = Some (JDict o) ->
  assoc "data" o = Some data ->
  AfreecaTVIE_real_extract video_id
  = (Requested (ReqVideoView video_id) :: trace (extract_data video_id data),
     outcome (extract_data video_id data)).
Proof.
  intros Hfetch Hdata. unfold AfreecaTVIE_real_extract.
  rewrite (bind_run _ _ _ _ (download_found true _ _ Hfetch)).
  cbn [py_getitem]. rewrite Hdata. by run.
Qed.

(** C2.  A response whose field [code] is -6221 is rejected with the
    expected error "The VOD does not exist", and one whose [code] is
    -6205 with the expected error "This VOD is private"; the two errors
    differ, and each is raised with nothing logged before it: no warning
    and no request for a manifest. *)
Theorem error_codes_rejected `{Host} video_id data :
  (traverse_key data "code" = JInt (-6221) ->
     extract_data video_id data
     = ([], inl (ExtractorError "The VOD does not exist" true)))
  /\ (traverse_key data "code" = JInt (-6205) ->
        extract_data video_id data
        = ([], inl (ExtractorError "This VOD is private" true)))
  /\ ExtractorError "The VOD does not exist" true
     <> ExtractorError "This VOD is private" true.
Proof.
  split; [|split].
  - intros Hcode. unfold extract_data, check_error_code. by rewrite Hcode.
  - intros Hcode. unfold extract_data, check_error_code. by rewrite Hcode.
  - discriminate.
Qed.

(** Each code, with files or an adult flag in the same response. *)
Lemma error_codes_rejected_witness :
  extract_data (H := table_host no_responses) "121155561" missing_vod
  = ([], inl (ExtractorError "The VOD does not exist" true))
  /\ extract_data (H := table_host no_responses) "121155561" private_vod
     = ([], inl (ExtractorError "This VOD is private" true)).
Proof.
  split.
  - apply (error_codes_rejected (H := table_host no_responses) "121155561" missing_vod).
    reflexivity.
  - apply (error_codes_rejected (H := table_host no_responses) "121155561" private_vod).
    reflexivity.
Defined.


Lemma table_host_manifests_ok responses video_id fs :
  manifests_ok (H := table_host responses) video_id fs.
Proof.
  intros k fe _. unfold formats_for, part_formats.
  destruct (String.eqb _ _); eexists; reflexivity.
Qed.


(** C10.  For a response without a title: a single usable file gives one
    info dict whose title is [None], and several give entries titled
    "Untitled (part k)"; the fallback is in the titles of parts only.
    The resolver returns under the conditions of C1. *)
Theorem untitled_only_for_parts `{Host} video_id data :
  as_str (traverse_key data "title") = JNull ->
  (forall x, outcome (extract_data video_id data) = inr x ->
     (forall fe, files data = [fe] ->
        exists i, x = Media i /\ i !! "title" = Some (PJson JNull))
     /\ ((1 < length (files data))%nat ->
         exists meta es, x = Playlist meta es
           /\ length es = length (files data)
           /\ forall (k : nat) e, es !! k = Some e ->
                e !! "title"
                = Some (PJson (JStr ("Untitled (part " +:+ pretty (S k) +:+ ")")))))
  /\ (outcome (check_error_code data) = inr tt ->
      outcome (check_flag data) = inr tt ->
      manifests_ok video_id (files data) ->
      exists x, outcome (extract_data video_id data) = inr x).
Proof.
  intros Hnone. split; [|apply extract_data_total].
  intros x Hx.
  destruct (extract_data_shape _ _ _ Hx) as (es & Hlen & Hk & Hcases). split.
  - intros fe Hfe. rewrite Hfe in Hlen.
    destruct Hcases as [(e & -> & ->)|[Hne _]]; [|done].
    eexists. split; [done|]. by rewrite lookup_insert_eq, Hnone.
  - intros Hmany.
    destruct Hcases as [(e & -> & _)|[_ [meta ->]]]; [cbn in Hlen; lia|].
    exists meta, es. split; [done|]. split; [done|].
    intros k e He.
    assert (is_Some (files data !! k)) as [fe Hfe].
    { apply lookup_lt_is_Some. rewrite <- Hlen. by eapply lookup_lt_Some. }
    destruct (Hk k fe Hfe) as (formats & _ & Hes).
    rewrite He in Hes. injection Hes as ->.
    by rewrite entry_title, (part_title_untitled _ _ Hnone).
Qed.

(** One and two usable files of responses without a title. *)
Lemma untitled_only_for_parts_witness :
  (exists i,
     outcome (extract_data (H := table_host no_responses) "121155561" untitled_one_file)
     = inr (Media i)
     /\ i !! "title" = Some (PJson JNull))
  /\ (exists meta e1 e2,
        outcome (extract_data (H := table_host no_responses) "121155561" untitled_two_files)
        = inr (Playlist meta [e1; e2])
        /\ e1 !! "title" = Some (PJson (JStr "Untitled (part 1)"))
        /\ e2 !! "title" = Some (PJson (JStr "Untitled (part 2)"))).
Proof.
  split.
  - destruct (untitled_only_for_parts (H := table_host no_responses)
                "121155561" untitled_one_file eq_refl) as [Hshape Hreturns].
    destruct Hreturns as [x Hx];
      [reflexivity | reflexivity | apply table_host_manifests_ok |].
    destruct (Hshape x Hx) as [Hone _].
    destruct (Hone first_file eq_refl) as (i & -> & Htitle).
    exists i. split; [exact Hx | exact Htitle].
  - destruct (untitled_only_for_parts (H := table_host no_responses)
                "121155561" untitled_two_files eq_refl) as [Hshape Hreturns].
    destruct Hreturns as [x Hx];
      [reflexivity | reflexivity | apply table_host_manifests_ok |].
    destruct (Hshape x Hx) as [_ Hmany].
    destruct Hmany as (meta & es & -> & Hlen & Hparts); [cbn; lia|].
    destruct es as [|e1 [|e2 [|e3 es]]]; try discriminate Hlen.
    exists meta, e1, e2. split; [exact Hx|]. split.
    + apply (Hparts 0%nat e1 eq_refl).
    + apply (Hparts 1%nat e2 eq_refl).
Defined.

(** ** The Live Resolver *)

Lemma probe_outcome `{Host} ci bno pwd q :
  outcome (probe ci bno pwd q) =
  if negb (truthy (tier_aid bno pwd q)) then inr []
  else
    match py_or (fetched (stream_request ci bno q)) (JDict []) with
    | JDict o =>
        if truthy (dict_get o "view_url") then
          match update_url_query (dict_get o "view_url") (tier_aid bno pwd q) with
          | Some url => inr [live_format q url]
          | None => inl (PyException "update_url_query")
          end
        else inr []
    | _ => inl (PyException "AttributeError")
    end.
Proof.
  unfold probe. rewrite (bind_run _ _ _ _ (download_soft _)).
  cbn [outcome snd]. fold (fetched (ReqAid bno q pwd)). fold (tier_aid bno pwd q).
  destruct (negb (truthy (tier_aid bno pwd q))); [done|].
  rewrite (bind_run _ _ _ _ (download_soft _)). cbn [outcome snd].
  fold (fetched (stream_request ci bno q)).
  destruct (py_or (fetched (stream_request ci bno q)) (JDict [])); try done.
  cbn [py_get]. run.
  destruct (truthy (dict_get o "view_url")); [|done].
  by destruct (update_url_query _ _).
Qed.

Lemma probe_inr `{Host} ci bno pwd q fs :
  outcome (probe ci bno pwd q) = inr fs ->
  forall f, f ∈ fs ->
    truthy (tier_view_url ci bno q) = true
    /\ exists url,
         update_url_query (tier_view_url ci bno q) (tier_aid bno pwd q) = Some url
         /\ f = live_format q url.
Proof.
  rewrite probe_outcome. unfold tier_view_url.
  destruct (negb _).
  { intros [= <-] f Hf. by apply elem_of_nil in Hf. }
  destruct (py_or _ _) as [| | | | | |o]; try done. cbn [traverse_key].
  destruct (truthy (dict_get o "view_url")) eqn:Hview.
  - destruct (update_url_query _ _) as [url|] eqn:Hurl; [|done].
    intros [= <-] f Hf. apply list_elem_of_singleton in Hf as ->.
    split; [done|]. by exists url.
  - intros [= <-] f Hf. by apply elem_of_nil in Hf.
Qed.

Lemma probe_fails `{Host} ci bno pwd q :
  tier_fails ci bno pwd q -> outcome (probe ci bno pwd q) = inr [].
Proof.
  rewrite probe_outcome. intros [Haid|(o & Ho & Hview)].
  - by rewrite Haid.
  - rewrite Ho, Hview. by destruct (negb _).
Qed.

Lemma probe_all_inr `{Host} ci bno pwd tiers :
  forall fs,
    outcome (probe_all ci bno pwd tiers) = inr fs ->
    forall f, f ∈ fs ->
      exists q,
        q ∈ tiers
        /\ truthy (tier_view_url ci bno q) = true
        /\ exists url,
             update_url_query (tier_view_url ci bno q) (tier_aid bno pwd q) = Some url
             /\ f = live_format q url.
Proof.
  induction tiers as [|q tiers IH]; intros fs Hrun f Hf.
  - injection Hrun as <-. by apply elem_of_nil in Hf.
  - cbn [probe_all] in Hrun. rewrite outcome_bind in Hrun.
    destruct (outcome (probe ci bno pwd q)) as [e|fs1] eqn:Hq; [done|].
    rewrite outcome_bind in Hrun.
    destruct (outcome (probe_all ci bno pwd tiers)) as [e|fs2] eqn:Hrest; [done|].
    injection Hrun as <-. apply elem_of_app in Hf as [Hf|Hf].
    + destruct (probe_inr _ _ _ _ _ Hq f Hf) as (Hview & url & Hurl & ->).
      exists q. split; [left|]. split; [done|]. by exists url.
    + destruct (IH fs2 eq_refl f Hf) as (q' & Hin & Hrestq).
      exists q'. split; [by right|done].
Qed.

Lemma probe_all_fails `{Host} ci bno pwd tiers :
  (forall q, q ∈ tiers -> tier_fails ci bno pwd q) ->
  outcome (probe_all ci bno pwd tiers) = inr [].
Proof.
  induction tiers as [|q tiers IH]; intros Hfail; [done|].
  cbn [probe_all]. rewrite outcome_bind, (probe_fails ci bno pwd q) by (apply Hfail; left).
  rewrite outcome_bind, IH; [done|]. intros q' Hq'. apply Hfail. by right.
Qed.

(** What a live resolution that returns went through. *)
Lemma live_inr `{Host} broadcaster_id broadcast_no password i :
  outcome (AfreecaTVLiveIE_real_extract broadcaster_id broadcast_no password) = inr i ->
  exists ci st fs,
    outcome (channel_info_of broadcaster_id) = inr ci
    /\ truthy (broadcast_of ci broadcast_no) = true
    /\ password_missing ci password = false
    /\ outcome (probe_all ci (broadcast_of ci broadcast_no) password _QUALITIES) = inr fs
    /\ outcome (station_info_of (broadcast_of ci broadcast_no)
                  (broadcaster_of ci broadcaster_id)) = inr st
    /\ i = live_info ci st (broadcaster_of ci broadcaster_id)
             (broadcast_of ci broadcast_no) fs.
Proof.
  unfold AfreecaTVLiveIE_real_extract. rewrite outcome_bind.
  destruct (outcome (channel_info_of broadcaster_id)) as [e|ci]; [done|].
  destruct (truthy (broadcast_of ci broadcast_no)) eqn:Hbno; [|done]. cbn [negb].
  destruct (password_missing ci password) eqn:Hpw; [done|].
  rewrite outcome_bind.
  destruct (outcome (probe_all _ _ _ _)) as [e|fs] eqn:Hfs; [done|].
  rewrite outcome_bind.
  destruct (outcome (station_info_of _ _)) as [e|st] eqn:Hst; [done|].
  intros [= <-]. by exists ci, st, fs.
Qed.

Lemma live_returns `{Host} broadcaster_id broadcast_no password ci st fs :
  outcome (channel_info_of broadcaster_id) = inr ci ->
  truthy (broadcast_of ci broadcast_no) = true ->
  password_missing ci password = false ->
  outcome (probe_all ci (broadcast_of ci broadcast_no) password _QUALITIES) = inr fs ->
  outcome (station_info_of (broadcast_of ci broadcast_no)
             (broadcaster_of ci broadcaster_id)) = inr st ->
  outcome (AfreecaTVLiveIE_real_extract broadcaster_id broadcast_no password)
  = inr (live_info ci st (broadcaster_of ci broadcaster_id)
           (broadcast_of ci broadcast_no) fs).
Proof.
  intros Hci Hbno Hpw Hfs Hst.
  unfold AfreecaTVLiveIE_real_extract. rewrite outcome_bind, Hci, Hbno, Hpw.
  cbn [negb]. by rewrite outcome_bind, Hfs, outcome_bind, Hst.
Qed.

Lemma live_info_lookup `{Host} ci st bjid bno fs :
  live_info ci st bjid bno fs !! "title"
  = Some (PJson (py_or (dict_get ci "TITLE") (dict_get st "station_title")))
  /\ live_info ci st bjid bno fs !! "uploader"
     = Some (PJson (py_or (dict_get ci "BJNICK") (dict_get st "station_name")))
  /\ live_info ci st bjid bno fs !! "timestamp"
     = Some (PJson (from_option JInt JNull
                      (unified_timestamp (dict_get st "broad_start"))))
  /\ live_info ci st bjid bno fs !! "formats" = Some (PFormats fs).
Proof.
  unfold live_info. repeat split;
    repeat (rewrite lookup_insert_ne by discriminate);
    by rewrite lookup_insert_eq.
Qed.

Lemma live_not_live `{Host} broadcaster_id broadcast_no password ci :
  outcome (channel_info_of broadcaster_id) = inr ci ->
  truthy (broadcast_of ci broadcast_no) = false ->
  outcome (AfreecaTVLiveIE_real_extract broadcaster_id broadcast_no password)
  = inl (not_live (broadcaster_of ci broadcaster_id)).
Proof.
  intros Hci Hbno. unfold AfreecaTVLiveIE_real_extract.
  by rewrite outcome_bind, Hci, Hbno.
Qed.

Lemma live_password_needed `{Host} broadcaster_id broadcast_no password ci :
  outcome (channel_info_of broadcaster_id) = inr ci ->
  truthy (broadcast_of ci broadcast_no) = true ->
  password_missing ci password = true ->
  outcome (AfreecaTVLiveIE_real_extract broadcaster_id broadcast_no password)
  = inl password_needed.
Proof.
  intros Hci Hbno Hpw. unfold AfreecaTVLiveIE_real_extract.
  by rewrite outcome_bind, Hci, Hbno, Hpw.
Qed.




(** A run on the sample channel: the requests in the order of the code,
    and the one format, of the tier [hd]. *)
Example live_run :
  AfreecaTVLiveIE_real_extract (H := table_host (live_table "N" "2021-12-28 03:18:15"))
    "pyh3646" None None
  = ([Requested (ReqChannel "pyh3646");
      Requested (ReqAid (JStr "237852185") "sd" None);
      Requested (ReqStreamAssign (JStr "https://livestream-manager.afreecatv.com")
                   (JStr "gcp_cdn") (JStr "237852185") "sd");
      Requested (ReqAid (JStr "237852185") "hd" None);
      Requested (ReqStreamAssign (JStr "https://livestream-manager.afreecatv.com")
                   (JStr "gcp_cdn") (JStr "237852185") "hd");
      Requested (ReqAid (JStr "237852185") "hd2k" None);
      Requested (ReqAid (JStr "237852185") "original" None);
      Requested (ReqStation (JStr "237852185") (JStr "pyh3646"))],
     inr (live_info (H := table_host (live_table "N" "2021-12-28 03:18:15"))
            [("BJID", JStr "pyh3646"); ("BNO", JStr "237852185");
             ("BPWD", JStr "N"); ("TITLE", JStr "Uruguay tonight");
             ("BJNICK", JStr "JINU")]
            [("station_title", JStr "JINU station"); ("station_name", JStr "Jinwoo");
             ("broad_start", JStr "2021-12-28 03:18:15")]
            (JStr "pyh3646") (JStr "237852185")
            [live_format "hd"
               (JStr "https://live-global-cdn.afreecatv.com/hd.m3u8?aid=token-hd")])).
Proof. vm_compute. reflexivity. Qed.

(** C8, as the code has it.  In what a live resolution returns, the title
    is the channel's [TITLE] when that is truthy (present and not empty)
    and the station status' [station_title] otherwise; the uploader is the
    channel's [BJNICK] when truthy and the station status' [station_name]
    otherwise; the start timestamp is always the station status'
    [broad_start] read by [unified_timestamp]: no field of the channel
    response takes part in it. *)
Theorem live_metadata_sources `{Host} broadcaster_id broadcast_no password i :
  outcome (AfreecaTVLiveIE_real_extract broadcaster_id broadcast_no password) = inr i ->
  exists ci st,
    outcome (channel_info_of broadcaster_id) = inr ci
    /\ outcome (station_info_of (broadcast_of ci broadcast_no)
                  (broadcaster_of ci broadcaster_id)) = inr st
    /\ (truthy (dict_get ci "TITLE") = true ->
          i !! "title" = Some (PJson (dict_get ci "TITLE")))
    /\ (truthy (dict_get ci "TITLE") = false ->
          i !! "title" = Some (PJson (dict_get st "station_title")))
    /\ (truthy (dict_get ci "BJNICK") = true ->
          i !! "uploader" = Some (PJson (dict_get ci "BJNICK")))
    /\ (truthy (dict_get ci "BJNICK") = false ->
          i !! "uploader" = Some (PJson (dict_get st "station_name")))
    /\ i !! "timestamp"
       = Some (PJson (from_option JInt JNull
                        (unified_timestamp (dict_get st "broad_start")))).
Proof.
  intros Hrun.
  destruct (live_inr _ _ _ _ Hrun) as (ci & st & fs & Hci & _ & _ & _ & Hst & ->).
  exists ci, st. split; [done|]. split; [done|].
  destruct (live_info_lookup ci st (broadcaster_of ci broadcaster_id)
              (broadcast_of ci broadcast_no) fs) as (Ht & Hu & Hts & _).
  rewrite Ht, Hu, Hts. unfold py_or.
  repeat split; by intros ->.
Qed.

(** An empty channel title falls back to the station; the uploader is
    the channel's; the timestamp is the station's start. *)
Lemma live_metadata_sources_witness :
  exists i,
    outcome (AfreecaTVLiveIE_real_extract (H := table_host untitled_channel_table)
               "pyh3646" None None) = inr i
    /\ i !! "title" = Some (PJson (JStr "JINU station"))
    /\ i !! "uploader" = Some (PJson (JStr "JINU"))
    /\ i !! "timestamp" = Some (PJson (JInt 1640661495)).
Proof.
  eexists. split; [reflexivity|].
  destruct (live_metadata_sources (H := table_host untitled_channel_table)
              "pyh3646" None None _ eq_refl)
    as (ci & st & Hci & Hst & _ & Htitle & Huploader & _ & Htime).
  injection Hci as <-. injection Hst as <-.
  split; [apply Htitle; reflexivity|].
  split; [apply Huploader; reflexivity|exact Htime].
Defined.

Lemma station_table_run ci broad_start :
  outcome (channel_info_of (H := table_host (station_table ci broad_start)) "pyh3646")
  = inr ci
  /\ exists i,
       outcome (AfreecaTVLiveIE_real_extract
                  (H := table_host (station_table ci broad_start))
                  "pyh3646" (Some "237852185") (Some "secret")) = inr i
       /\ i !! "timestamp"
          = Some (PJson (from_option JInt JNull (date_timestamp (JStr broad_start)))).
Proof.
  assert (outcome (channel_info_of (H := table_host (station_table ci broad_start))
                     "pyh3646") = inr ci) as Hci.
  { unfold channel_info_of. rewrite (bind_run _ _ _ _ (download_soft _)).
    cbn [outcome snd]. cbn. by destruct ci. }
  split; [done|]. eexists. split.
  - apply (live_returns _ _ _ ci
             [("station_title", JStr "JINU station"); ("station_name", JStr "Jinwoo");
              ("broad_start", JStr broad_start)] []).
    + exact Hci.
    + unfold broadcast_of, py_or. by destruct (truthy (dict_get ci "BNO")) eqn:Hbno.
    + unfold password_missing. by rewrite andb_false_r.
    + apply probe_all_fails. intros q _. by left.
    + reflexivity.
  - match goal with |- ?d !! "timestamp" = _ =>
      match d with live_info ?c ?s ?b ?n ?l =>
        exact (proj1 (proj2 (proj2
                 (live_info_lookup (H := table_host (station_table ci broad_start))
                    c s b n l))))
      end
    end.
Qed.

(** C8 as stated fails for the timestamp: with the channel response held
    fixed, two station statuses give two timestamps. *)
Lemma timestamp_not_from_channel : ~ timestamp_from_channel.
Proof.
  intros (present & f & [ci Hpresent] & Hstated).
  destruct (station_table_run ci "2021-12-28 03:18:15") as [Hci1 (i1 & Hrun1 & Hts1)].
  destruct (station_table_run ci "2024-04-06 12:25:43") as [Hci2 (i2 & Hrun2 & Hts2)].
  assert (i1 !! "timestamp" = f date_timestamp ci) as H1
    by exact (Hstated _ _ _ _ _ _ Hci1 Hpresent Hrun1).
  assert (i2 !! "timestamp" = f date_timestamp ci) as H2
    by exact (Hstated _ _ _ _ _ _ Hci2 Hpresent Hrun2).
  rewrite Hts1 in H1. rewrite Hts2 in H2. rewrite <- H2 in H1. discriminate H1.
Qed.

(** ** Formats and their URLs *)

(** The files that reach the loop are objects of the response whose
    [file] the helper [url_or_none] accepts. *)
Lemma files_usable `{Host} data fe :
  fe ∈ files data ->
  JDict fe ∈ branch_values (traverse_key data "files")
  /\ exists s, url_or_none (dict_get fe "file") = Some s /\ s <> "".
Proof.
  unfold files. rewrite list_elem_of_omap. intros (v & Hv & Husable).
  destruct v as [| | | | | |o]; try done. cbn in Husable.
  destruct (assoc "file" o) as [u|] eqn:Hu; [|done].
  destruct (url_or_none u) as [s|] eqn:Hs; [|done].
  destruct (String.eqb_spec s ""); [done|].
  injection Husable as <-. split; [done|].
  exists s. unfold dict_get, dict_get_default. by rewrite Hu.
Qed.

Lemma direct_file_formats `{Host} video_id (n : nat) fe :
  determine_ext (dict_get fe "file") <> "m3u8" ->
  formats_for video_id n fe
  = inr [ ({[ "url" := dict_get fe "file"; "format_id" := JStr "http" ]} : format) ].
Proof.
  intros Hext. unfold formats_for, part_formats.
  by destruct (String.eqb_spec (determine_ext (dict_get fe "file")) "m3u8").
Qed.

Lemma live_format_lookup q url :
  live_format q url !! "url" = Some url
  /\ live_format q url !! "format_id" = Some (JStr q).
Proof.
  unfold live_format. split.
  - rewrite lookup_insert_ne by discriminate. by rewrite lookup_insert_eq.
  - by rewrite lookup_insert_eq.
Qed.



(** ** Durations, timestamps and the content flag *)

Lemma common_info_no_timestamp `{Host} data : common_info data !! "timestamp" = None.
Proof.
  unfold common_info. rewrite !lookup_put.
  repeat match goal with |- context [match ?v with _ => _ end] => destruct v end;
    by rewrite ?lookup_empty.
Qed.

Lemma entry_duration `{Host} video_id common n fe formats :
  entry video_id common n fe formats !! "duration"
  = match int_or_none (dict_get fe "duration") 1000 with
    | Some seconds => Some (PJson (JInt seconds))
    | None => common !! "duration"
    end.
Proof.
  unfold entry. rewrite lookup_dict_merge, file_info_lookup.
  rewrite decide_True by done.
  destruct (int_or_none _ _); [done|]. cbn.
  by rewrite !lookup_insert_ne by discriminate.
Qed.

Lemma entry_timestamp `{Host} video_id data n fe formats :
  entry video_id (common_info data) n fe formats !! "timestamp"
  = PJson ∘ JInt <$> unified_timestamp (dict_get fe "file_start").
Proof.
  unfold entry. rewrite lookup_dict_merge, file_info_lookup.
  rewrite decide_False by discriminate. rewrite decide_True by done.
  destruct (unified_timestamp _); [done|]. cbn.
  rewrite !lookup_insert_ne by discriminate. apply common_info_no_timestamp.
Qed.

(** C7, as the code has it.  In what the resolver returns, the entry of
    each usable file has as its duration the file's [duration] scaled
    from milliseconds to seconds (the floor of a thousandth; the common
    duration when the file has none), and as its timestamp whatever
    [unified_timestamp] makes of the file's [file_start] as it stands:
    the resolver scales nothing there, and the entry has no timestamp when
    the helper gives none. *)
Theorem entry_duration_and_start `{Host} video_id data x :
  outcome (extract_data video_id data) = inr x ->
  forall (k : nat) fe, files data !! k = Some fe ->
    exists e,
      entries_of x !! k = Some e
      /\ (forall ms, dict_get fe "duration" = JInt ms ->
            e !! "duration" = Some (PJson (JInt (ms `div` 1000))))
      /\ (int_or_none (dict_get fe "duration") 1000 = None ->
            e !! "duration" = common_info data !! "duration")
      /\ e !! "timestamp"
         = PJson ∘ JInt <$> unified_timestamp (dict_get fe "file_start").
Proof.
  intros Hx k fe Hfe.
  destruct (extract_data_shape _ _ _ Hx) as (es & Hlen & Hk & Hcases).
  destruct (Hk k fe Hfe) as (formats & _ & Hes).
  assert (exists e, entries_of x !! k = Some e
            /\ e !! "duration"
               = entry video_id (common_info data) (S k) fe formats !! "duration"
            /\ e !! "timestamp"
               = entry video_id (common_info data) (S k) fe formats !! "timestamp")
    as (e & He & Hd & Ht).
  { destruct Hcases as [(e0 & -> & ->)|[_ [meta ->]]]; cbn [entries_of].
    - destruct k as [|k]; [|done]. injection Hes as ->.
      eexists. split; [done|]. by rewrite !lookup_insert_ne.
    - by eexists. }
  exists e. split; [done|]. rewrite Hd, Ht, entry_duration, entry_timestamp.
  repeat split.
  - intros ms ->. done.
  - by intros ->.
Qed.

(** 17999999 ms are 17999 s; the start is the date read as UTC. *)
Lemma entry_duration_and_start_witness :
  exists e,
    entries_of (Media e) !! 0%nat = Some e
    /\ outcome (extract_data (H := table_host no_responses) "121155561"
                  (dated_vod (JStr "2024-04-06 12:25:43"))) = inr (Media e)
    /\ e !! "duration" = Some (PJson (JInt 17999))
    /\ e !! "timestamp" = Some (PJson (JInt 1712406343)).
Proof.
  eexists. split; [reflexivity|]. split; [reflexivity|].
  destruct (entry_duration_and_start (H := table_host no_responses) "121155561"
              (dated_vod (JStr "2024-04-06 12:25:43")) _ eq_refl 0%nat _ eq_refl)
    as (e & He & Hduration & _ & Hstart).
  injection He as <-. split; [exact (Hduration _ eq_refl) | exact Hstart].
Defined.

(** C7 as stated fails for the timestamp: a [file_start] that is a number
    of milliseconds is not scaled to seconds; the date parser of the host
    gives nothing for it and the item has no timestamp, while the
    duration of the same file is scaled. *)
Lemma start_in_milliseconds_is_not_scaled :
  exists i,
    outcome (extract_data (H := table_host no_responses) "121155561"
               (dated_vod (JInt 1712406343000))) = inr (Media i)
    /\ i !! "duration" = Some (PJson (JInt 17999))
    /\ i !! "timestamp" = None
    /\ i !! "timestamp" <> Some (PJson (JInt (1712406343000 `div` 1000))).
Proof.
  eexists. split; [reflexivity|]. split; [reflexivity|].
  split; [reflexivity | discriminate].
Qed.

(** The assembly reads the title, the uploader fields, the duration, the
    thumbnail and the files of the response, and nothing else: two
    responses that agree outside of [flag] are assembled alike. *)
Lemma assemble_ignores_flag `{Host} video_id data data' :
  (forall k, k <> "flag" -> traverse_key data' k = traverse_key data k) ->
  assemble video_id data' = assemble video_id data.
Proof.
  intros Hsame. unfold assemble, common_info, files.
  by rewrite !Hsame by discriminate.
Qed.

Lemma check_error_code_same `{Host} data data' :
  traverse_key data' "code" = traverse_key data "code" ->
  check_error_code data' = check_error_code data.
Proof. intros Hsame. unfold check_error_code. by rewrite Hsame. Qed.

Lemma check_error_code_passed `{Host} data :
  outcome (check_error_code data) = inr tt -> check_error_code data = mret tt.
Proof.
  unfold check_error_code.
  by repeat match goal with |- context [if ?b then _ else _] => destruct b end.
Qed.

Lemma extract_data_unflagged `{Host} video_id data :
  outcome (check_error_code data) = inr tt ->
  as_str (traverse_key data "flag") = JNull ->
  extract_data video_id data = assemble video_id data.
Proof.
  intros Hcode Hflag. unfold extract_data.
  rewrite (check_error_code_passed _ Hcode). run.
  unfold check_flag. rewrite Hflag. cbn [eq_str]. by run.
Qed.

Lemma extract_data_partial_adult `{Host} video_id data :
  outcome (check_error_code data) = inr tt ->
  traverse_key data "flag" = JStr "PARTIAL_ADULT" ->
  extract_data video_id data
  = (Warned partial_adult_warning :: trace (assemble video_id data),
     outcome (assemble video_id data)).
Proof.
  intros Hcode Hflag. unfold extract_data.
  rewrite (check_error_code_passed _ Hcode). run.
  unfold check_flag. rewrite Hflag. cbn [as_str eq_str String.eqb Ascii.eqb Bool.eqb].
  by run.
Qed.




(** ** The Listing Paginator *)

Lemma trace_ret {A} (a : A) : trace (mret a : M A) = [].
Proof. done. Qed.

Lemma trace_silent_bind {A B} (m : M A) (k : A -> M B) :
  trace m = [] -> (forall a, trace (k a) = []) -> trace (m ≫= k) = [].
Proof.
  intros Hm Hk. rewrite trace_bind, Hm.
  destruct (outcome m); [done|]. apply Hk.
Qed.

Lemma trace_py_getitem `{Host} v k : trace (py_getitem v k) = [].
Proof.
  destruct v as [| | | | | |o]; try done. cbn. by destruct (assoc k o).
Qed.

Lemma trace_py_iter `{Host} v : trace (py_iter v) = [].
Proof. by destruct v. Qed.

Lemma trace_item_result `{Host} item : trace (item_result item) = [].
Proof.
  unfold item_result. apply trace_silent_bind; [apply trace_py_getitem|done].
Qed.

Lemma trace_for_each {A B} (f : A -> M B) (l : list A) :
  (forall x, trace (f x) = []) -> trace (for_each f l) = [].
Proof.
  intros Hf. induction l as [|x l IH]; [done|].
  cbn [for_each]. apply trace_silent_bind; [apply Hf|].
  intros y. by apply trace_silent_bind.
Qed.

(** A page costs one request: page [p + 1], with 60 items per page. *)
Lemma fetch_page_trace `{Host} user_id user_type (p : nat) :
  trace (_fetch_page user_id user_type p)
  = [Requested (ReqVods user_id user_type (S p) _PER_PAGE)].
Proof.
  unfold _fetch_page, _download_json.
  rewrite bind_assoc_M, emit_bind. cbn [trace fst]. f_equal.
  destruct (fetch _) as [j|]; [|done]. run.
  apply trace_silent_bind; [apply trace_py_getitem|]. intros data.
  apply trace_silent_bind; [apply trace_py_iter|]. intros items.
  apply trace_for_each, trace_item_result.
Qed.

(** Consumption asks for the pages in turn and stops at the first page
    without items: it has then asked for that page and for none after. *)
Lemma consume_from_stops {A} (l : OnDemandPagedList A) (req : nat -> event) :
  (forall p, trace (pagefunc l p) = [req p]) ->
  forall (pages : list (list A)) (start fuel : nat),
    (forall (p : nat) items, pages !! p = Some items ->
       outcome (pagefunc l (start + p)) = inr items /\ items <> []) ->
    outcome (pagefunc l (start + length pages)) = inr [] ->
    (length pages < fuel)%nat ->
    consume_from l fuel start
    = (map req (seq start (S (length pages))), inr (Some (concat pages))).
Proof.
  intros Hreq pages. induction pages as [|items pages IH]; intros start fuel Hpages Hlast Hfuel.
  - destruct fuel as [|fuel]; [cbn in Hfuel; lia|].
    cbn [consume_from length] in *. replace (start + 0)%nat with start in Hlast by lia.
    rewrite (bind_run (pagefunc l start) _ [req start] []).
    + done.
    + by rewrite (run_eta (pagefunc l start)), Hreq, Hlast.
  - destruct fuel as [|fuel]; [cbn in Hfuel; lia|].
    destruct (Hpages 0%nat items eq_refl) as [Hitems Hne].
    replace (start + 0)%nat with start in Hitems by lia.
    cbn [consume_from].
    rewrite (bind_run (pagefunc l start) _ [req start] items)
      by (by rewrite (run_eta (pagefunc l start)), Hreq, Hitems).
    destruct items as [|item items]; [done|].
    rewrite (IH (S start) fuel).
    + rewrite (bind_run _ _ _ (Some (concat pages)) eq_refl).
      cbn. by rewrite app_nil_r.
    + intros p its Hp. replace (S start + p)%nat with (start + S p)%nat by lia.
      by apply Hpages.
    + cbn [length] in Hlast.
      by replace (S start + length pages)%nat with (start + S (length pages))%nat by lia.
    + cbn [length] in Hfuel. lia.
Qed.



(** * Further properties *)

(** ** The requests of a live resolution *)

Lemma trace_py_get `{Host} v k : trace (py_get v k) = [].
Proof. by destruct v. Qed.

Lemma trace_dict_or_empty `{Host} d : trace (dict_or_empty d) = [].
Proof. unfold dict_or_empty. by destruct (py_or d (JDict [])). Qed.

Lemma channel_info_trace `{Host} bid :
  trace (channel_info_of bid) = [Requested (ReqChannel bid)].
Proof.
  unfold channel_info_of. rewrite (bind_run _ _ _ _ (download_soft _)).
  cbn [trace fst]. rewrite trace_silent_bind; [done|apply trace_py_get|].
  intros a. apply trace_dict_or_empty.
Qed.

Lemma station_info_trace `{Host} bno bjid :
  trace (station_info_of bno bjid) = [Requested (ReqStation bno bjid)].
Proof.
  unfold station_info_of. rewrite (bind_run _ _ _ _ (download_soft _)).
  cbn [trace fst]. by rewrite trace_dict_or_empty.
Qed.

(** One turn of the loop asks for the token, and for the stream
    assignment when there is a token. *)
Lemma probe_trace `{Host} ci bno pwd q :
  trace (probe ci bno pwd q) = tier_requests ci bno pwd q.
Proof.
  unfold probe, tier_requests. rewrite (bind_run _ _ _ _ (download_soft _)).
  cbn [trace fst app]. f_equal.
  fold (fetched (ReqAid bno q pwd)). fold (tier_aid bno pwd q).
  destruct (truthy (tier_aid bno pwd q)); [|done]. cbn [negb].
  rewrite (bind_run _ _ _ _ (download_soft _)). cbn [trace fst app]. f_equal.
  apply trace_silent_bind; [apply trace_py_get|].
  intros view_url. destruct (truthy view_url); [|done].
  by destruct (update_url_query _ _).
Qed.

Lemma probe_all_trace `{Host} ci bno pwd tiers :
  forall fs,
    outcome (probe_all ci bno pwd tiers) = inr fs ->
    trace (probe_all ci bno pwd tiers)
    = concat (map (tier_requests ci bno pwd) tiers).
Proof.
  induction tiers as [|q tiers IH]; intros fs Hrun; [done|].
  cbn [probe_all] in *. rewrite outcome_bind in Hrun. rewrite trace_bind.
  destruct (outcome (probe ci bno pwd q)) as [e|fs1]; [done|].
  rewrite outcome_bind in Hrun. rewrite trace_bind.
  destruct (outcome (probe_all ci bno pwd tiers)) as [e|fs2]; [done|].
  cbn [map concat]. rewrite probe_trace, (IH fs2 eq_refl).
  cbn [trace fst]. by rewrite app_nil_r.
Qed.

Lemma tier_requests_length `{Host} ci bno pwd q :
  (1 <= length (tier_requests ci bno pwd q) <= 2)%nat.
Proof.
  unfold tier_requests. destruct (truthy _); cbn; lia.
Qed.

Lemma channel_info_error `{Host} bid e :
  outcome (channel_info_of bid) = inl e -> python_error e.
Proof.
  unfold channel_info_of. rewrite (bind_run _ _ _ _ (download_soft _)).
  cbn [outcome snd]. rewrite outcome_bind.
  destruct (py_or _ _) as [| | | | | |o]; cbn; try (intros [= <-]; by eexists).
  unfold dict_or_empty. destruct (py_or _ _); cbn; try done;
    intros [= <-]; by eexists.
Qed.

Lemma station_info_error `{Host} bno bjid e :
  outcome (station_info_of bno bjid) = inl e -> python_error e.
Proof.
  unfold station_info_of. rewrite (bind_run _ _ _ _ (download_soft _)).
  cbn [outcome snd]. unfold dict_or_empty.
  destruct (py_or _ _); cbn; try done; intros [= <-]; by eexists.
Qed.

Lemma probe_error `{Host} ci bno pwd q e :
  outcome (probe ci bno pwd q) = inl e -> python_error e.
Proof.
  rewrite probe_outcome. destruct (negb _); [done|].
  destruct (py_or _ _) as [| | | | | |o]; try (intros [= <-]; by eexists).
  destruct (truthy _); [|done].
  destruct (update_url_query _ _); [done|]. intros [= <-]. by eexists.
Qed.

Lemma probe_all_error `{Host} ci bno pwd tiers e :
  outcome (probe_all ci bno pwd tiers) = inl e -> python_error e.
Proof.
  induction tiers as [|q tiers IH]; [done|].
  cbn [probe_all]. rewrite outcome_bind.
  destruct (outcome (probe ci bno pwd q)) as [e'|fs1] eqn:Hq.
  { intros [= <-]. by apply probe_error in Hq. }
  rewrite outcome_bind.
  destruct (outcome (probe_all ci bno pwd tiers)) as [e'|fs2]; [|done].
  intros [= <-]. by apply IH.
Qed.

(** X1.  An [ExtractorError] that the live resolution ends in is raised
    right after the channel look-up: the one request made is that for the
    channel, no tier and no station status is asked for; the error is an
    expected one, and it is either the one for a missing broadcast number
    or the one that asks for a password. *)
Theorem live_extractor_error_after_one_request `{Host}
    broadcaster_id broadcast_no password msg expected :
  outcome (AfreecaTVLiveIE_real_extract broadcaster_id broadcast_no password)
  = inl (ExtractorError msg expected) ->
  expected = true
  /\ trace (AfreecaTVLiveIE_real_extract broadcaster_id broadcast_no password)
     = [Requested (ReqChannel broadcaster_id)]
  /\ exists ci,
       outcome (channel_info_of broadcaster_id) = inr ci
       /\ ((truthy (broadcast_of ci broadcast_no) = false
            /\ ExtractorError msg expected = not_live (broadcaster_of ci broadcaster_id))
           \/ (truthy (broadcast_of ci broadcast_no) = true
               /\ password_missing ci password = true
               /\ ExtractorError msg expected = password_needed)).
Proof.
  unfold AfreecaTVLiveIE_real_extract. rewrite outcome_bind, trace_bind.
  destruct (outcome (channel_info_of broadcaster_id)) as [e|ci] eqn:Hci.
  { intros [= ->]. by destruct (channel_info_error _ _ Hci). }
  rewrite channel_info_trace.
  destruct (truthy (broadcast_of ci broadcast_no)) eqn:Hbno; cbn [negb].
  2:{ intros [= <- <-]. split; [done|]. split; [done|].
      exists ci. split; [done|]. by left. }
  destruct (password_missing ci password) eqn:Hpw.
  { intros [= <- <-]. split; [done|]. split; [done|].
    exists ci. split; [done|]. by right. }
  rewrite outcome_bind.
  destruct (outcome (probe_all _ _ _ _)) as [e|fs] eqn:Hfs.
  { intros [= ->]. by destruct (probe_all_error _ _ _ _ _ Hfs). }
  rewrite outcome_bind.
  destruct (outcome (station_info_of _ _)) as [e|st] eqn:Hst; [|done].
  intros [= ->]. by destruct (station_info_error _ _ _ Hst).
Qed.

(** A protected channel and no password: one request. *)
Lemma live_extractor_error_after_one_request_witness :
  outcome (AfreecaTVLiveIE_real_extract (H := table_host (silent_table "Y"))
             "pyh3646" None None)
  = inl password_needed
  /\ trace (AfreecaTVLiveIE_real_extract (H := table_host (silent_table "Y"))
              "pyh3646" None None)
     = [Requested (ReqChannel "pyh3646")].
Proof.
  split; [reflexivity|].
  exact (proj1 (proj2 (live_extractor_error_after_one_request
                         (H := table_host (silent_table "Y"))
                         "pyh3646" None None _ true eq_refl))).
Defined.

(** X2.  A live resolution never ends in the error of a failed download
    nor in a request to log in: when it fails, it is with the error for a
    missing broadcast number, with the one that asks for a password, or
    with an exception of Python's own that a response of an unexpected
    shape (or a helper) caused. *)
Theorem live_failure_kinds `{Host} broadcaster_id broadcast_no password e :
  outcome (AfreecaTVLiveIE_real_extract broadcaster_id broadcast_no password) = inl e ->
  (exists bjid, e = not_live bjid) \/ e = password_needed \/ python_error e.
Proof.
  unfold AfreecaTVLiveIE_real_extract. rewrite outcome_bind.
  destruct (outcome (channel_info_of broadcaster_id)) as [e'|ci] eqn:Hci.
  { intros [= <-]. right. right. by apply channel_info_error in Hci. }
  destruct (truthy (broadcast_of ci broadcast_no)); cbn [negb].
  2:{ intros [= <-]. left. by eexists. }
  destruct (password_missing ci password).
  { intros [= <-]. right. by left. }
  rewrite outcome_bind.
  destruct (outcome (probe_all _ _ _ _)) as [e'|fs] eqn:Hfs.
  { intros [= <-]. right. right. by apply probe_all_error in Hfs. }
  rewrite outcome_bind.
  destruct (outcome (station_info_of _ _)) as [e'|st] eqn:Hst; [|done].
  intros [= <-]. right. right. by apply station_info_error in Hst.
Qed.

(** No download succeeds and the URL has no broadcast number: the error
    is the one for a channel that is not live, not that of a download. *)
Lemma live_failure_kinds_witness :
  outcome (AfreecaTVLiveIE_real_extract (H := table_host no_responses)
             "pyh3646" None None)
  = inl (not_live (H := table_host no_responses) (JStr "pyh3646"))
  /\ ((exists bjid,
         not_live (H := table_host no_responses) (JStr "pyh3646")
         = not_live (H := table_host no_responses) bjid)
      \/ not_live (H := table_host no_responses) (JStr "pyh3646") = password_needed
      \/ python_error (not_live (H := table_host no_responses) (JStr "pyh3646"))).
Proof.
  split; [reflexivity|].
  exact (live_failure_kinds (H := table_host no_responses)
           "pyh3646" None None _ eq_refl).
Defined.

(** X3.  The requests of a live resolution that returns, in the order
    they are made: the channel first; then for each of the four tiers, in
    the order sd, hd, hd2k, original, the request for its token, followed
    by the request for its stream assignment if the answer has a token;
    the station status last.  These are between 6 and 10 requests, and
    nothing else is logged. *)
Theorem live_requests_in_order `{Host} broadcaster_id broadcast_no password i :
  outcome (AfreecaTVLiveIE_real_extract broadcaster_id broadcast_no password) = inr i ->
  exists ci,
    outcome (channel_info_of broadcaster_id) = inr ci
    /\ trace (AfreecaTVLiveIE_real_extract broadcaster_id broadcast_no password)
       = Requested (ReqChannel broadcaster_id)
         :: concat (map (tier_requests ci (broadcast_of ci broadcast_no) password)
                      ["sd"; "hd"; "hd2k"; "original"])
         ++ [Requested (ReqStation (broadcast_of ci broadcast_no)
                          (broadcaster_of ci broadcaster_id))]
    /\ (6 <= length (trace (AfreecaTVLiveIE_real_extract
                              broadcaster_id broadcast_no password)) <= 10)%nat.
Proof.
  intros Hrun. destruct (live_inr _ _ _ _ Hrun) as (ci & st & fs & Hci & Hbno & Hpw & Hfs & Hst & _).
  exists ci. split; [done|].
  assert (trace (AfreecaTVLiveIE_real_extract broadcaster_id broadcast_no password)
          = Requested (ReqChannel broadcaster_id)
            :: concat (map (tier_requests ci (broadcast_of ci broadcast_no) password)
                         ["sd"; "hd"; "hd2k"; "original"])
            ++ [Requested (ReqStation (broadcast_of ci broadcast_no)
                             (broadcaster_of ci broadcaster_id))]) as Htrace.
  { unfold AfreecaTVLiveIE_real_extract.
    rewrite trace_bind, Hci, channel_info_trace, Hbno, Hpw. cbn [negb app]. f_equal.
    rewrite trace_bind, Hfs, (probe_all_trace _ _ _ _ _ Hfs). f_equal.
    rewrite trace_bind, Hst, station_info_trace. cbn [trace fst].
    by rewrite app_nil_r. }
  split; [done|]. rewrite Htrace. cbn [map concat length].
  rewrite !length_app. cbn [length].
  pose proof (tier_requests_length ci (broadcast_of ci broadcast_no) password "sd").
  pose proof (tier_requests_length ci (broadcast_of ci broadcast_no) password "hd").
  pose proof (tier_requests_length ci (broadcast_of ci broadcast_no) password "hd2k").
  pose proof (tier_requests_length ci (broadcast_of ci broadcast_no) password "original").
  lia.
Qed.

(** Two tiers have a token: eight requests. *)
Lemma live_requests_in_order_witness :
  (exists i,
     outcome (AfreecaTVLiveIE_real_extract
                (H := table_host (live_table "N" "2021-12-28 03:18:15"))
                "pyh3646" None None) = inr i)
  /\ length (trace (AfreecaTVLiveIE_real_extract
                      (H := table_host (live_table "N" "2021-12-28 03:18:15"))
                      "pyh3646" None None)) = 8%nat
  /\ (6 <= length (trace (AfreecaTVLiveIE_real_extract
                            (H := table_host (live_table "N" "2021-12-28 03:18:15"))
                            "pyh3646" None None)) <= 10)%nat.
Proof.
  split; [eexists; reflexivity|]. split; [reflexivity|].
  destruct (live_requests_in_order
              (H := table_host (live_table "N" "2021-12-28 03:18:15"))
              "pyh3646" None None _ eq_refl) as (ci & _ & _ & Hlen).
  exact Hlen.
Defined.

(** ** The formats and the identity of a live stream *)

Lemma probe_shape `{Host} ci bno pwd q fs :
  outcome (probe ci bno pwd q) = inr fs ->
  fs = [] \/ exists url, fs = [live_format q url].
Proof.
  rewrite probe_outcome. destruct (negb _); [intros [= <-]; by left|].
  destruct (py_or _ _) as [| | | | | |o]; try done.
  destruct (truthy _); [|intros [= <-]; by left].
  destruct (update_url_query _ _) as [url|]; [|done].
  intros [= <-]. right. by exists url.
Qed.

Lemma live_format_fixed q url :
  live_format q url !! "ext" = Some (JStr "mp4")
  /\ live_format q url !! "protocol" = Some (JStr "m3u8").
Proof.
  unfold live_format. split;
    repeat (rewrite lookup_insert_ne by discriminate); by rewrite lookup_insert_eq.
Qed.

Lemma probe_all_ordered `{Host} ci bno pwd tiers :
  forall fs,
    outcome (probe_all ci bno pwd tiers) = inr fs ->
    sublist (map (fun f : format => f !! "format_id") fs) (map (Some ∘ JStr) tiers)
    /\ Forall (fun f : format =>
                 f !! "ext" = Some (JStr "mp4") /\ f !! "protocol" = Some (JStr "m3u8"))
         fs.
Proof.
  induction tiers as [|q tiers IH]; intros fs Hrun.
  - injection Hrun as <-. split; constructor.
  - cbn [probe_all] in Hrun. rewrite outcome_bind in Hrun.
    destruct (outcome (probe ci bno pwd q)) as [e|fs1] eqn:Hq; [done|].
    rewrite outcome_bind in Hrun.
    destruct (outcome (probe_all ci bno pwd tiers)) as [e|fs2] eqn:Hrest; [done|].
    injection Hrun as <-. destruct (IH fs2 eq_refl) as [Hsub Hall].
    destruct (probe_shape _ _ _ _ _ Hq) as [->|[url ->]]; cbn [app map].
    + split; [by apply sublist_cons|done].
    + split.
      * rewrite (proj2 (live_format_lookup q url)). by apply sublist_skip.
      * constructor; [apply live_format_fixed|done].
Qed.

(** X4.  The formats of a live resolution that returns follow the order
    of the tiers: their format ids are the names of tiers, each at most
    once and in the order sd, hd, hd2k, original, so that there are at most
    four formats; every format is marked as an [mp4] stream delivered over
    [m3u8]. *)
Theorem live_formats_in_tier_order `{Host} broadcaster_id broadcast_no password i :
  outcome (AfreecaTVLiveIE_real_extract broadcaster_id broadcast_no password) = inr i ->
  exists fs,
    i !! "formats" = Some (PFormats fs)
    /\ sublist (map (fun f : format => f !! "format_id") fs)
         [Some (JStr "sd"); Some (JStr "hd"); Some (JStr "hd2k"); Some (JStr "original")]
    /\ (length fs <= 4)%nat
    /\ Forall (fun f : format =>
                 f !! "ext" = Some (JStr "mp4") /\ f !! "protocol" = Some (JStr "m3u8"))
         fs.
Proof.
  intros Hrun.
  destruct (live_inr _ _ _ _ Hrun) as (ci & st & fs & _ & _ & _ & Hfs & _ & ->).
  exists fs. split; [apply live_info_lookup|].
  destruct (probe_all_ordered _ _ _ _ _ Hfs) as [Hsub Hall].
  split; [exact Hsub|]. split; [|exact Hall].
  apply sublist_length in Hsub. by rewrite length_map in Hsub.
Qed.

(** The one tier with a view URL gives the one format. *)
Lemma live_formats_in_tier_order_witness :
  exists i fs,
    outcome (AfreecaTVLiveIE_real_extract
               (H := table_host (live_table "N" "2021-12-28 03:18:15"))
               "pyh3646" None None) = inr i
    /\ i !! "formats" = Some (PFormats fs)
    /\ map (fun f : format => f !! "format_id") fs = [Some (JStr "hd")]
    /\ (length fs <= 4)%nat.
Proof.
  destruct (live_formats_in_tier_order
              (H := table_host (live_table "N" "2021-12-28 03:18:15"))
              "pyh3646" None None _ eq_refl) as (fs & Hfs & _ & Hlen & _).
  eexists. exists fs. split; [reflexivity|]. split; [exact Hfs|].
  split; [|exact Hlen].
  vm_compute in Hfs. injection Hfs as <-. reflexivity.
Defined.

(** X5.  What a live resolution returns is marked as live and is
    identified by the channel's answer before the URL: its id is the
    broadcast number of the channel information when that has one, and the
    one of the URL otherwise, and in both cases a value that is not empty;
    its uploader id is the broadcaster id of the channel information when
    that has one, and the one of the URL otherwise. *)
Theorem live_identity `{Host} broadcaster_id broadcast_no password i :
  outcome (AfreecaTVLiveIE_real_extract broadcaster_id broadcast_no password) = inr i ->
  exists ci id,
    outcome (channel_info_of broadcaster_id) = inr ci
    /\ i !! "is_live" = Some (PJson (JBool true))
    /\ i !! "id" = Some (PJson id)
    /\ truthy id = true
    /\ (truthy (dict_get ci "BNO") = true -> id = dict_get ci "BNO")
    /\ (truthy (dict_get ci "BNO") = false ->
          exists bno, broadcast_no = Some bno /\ bno <> "" /\ id = JStr bno)
    /\ i !! "uploader_id"
       = Some (PJson (if truthy (dict_get ci "BJID") then dict_get ci "BJID"
                      else JStr broadcaster_id)).
Proof.
  intros Hrun.
  destruct (live_inr _ _ _ _ Hrun) as (ci & st & fs & Hci & Hbno & _ & _ & _ & ->).
  exists ci, (broadcast_of ci broadcast_no). split; [done|].
  unfold live_info.
  split; [repeat (rewrite lookup_insert_ne by discriminate); apply lookup_singleton_eq|].
  split; [by rewrite lookup_insert_eq|]. split; [done|].
  unfold broadcast_of, py_or in *.
  split; [by intros ->|]. split.
  - intros Hno. rewrite Hno in *. destruct broadcast_no as [bno|]; [|done].
    exists bno. split; [done|]. split; [|done].
    intros ->. done.
  - repeat (rewrite lookup_insert_ne by discriminate). by rewrite lookup_insert_eq.
Qed.

(** The channel has no broadcast number of its own: the one of the URL
    is the id. *)
Lemma live_identity_witness :
  exists i,
    outcome (AfreecaTVLiveIE_real_extract
               (H := table_host (station_table [("BJNICK", JStr "JINU")]
                                   "2021-12-28 03:18:15"))
               "pyh3646" (Some "237852185") None) = inr i
    /\ i !! "id" = Some (PJson (JStr "237852185"))
    /\ i !! "uploader_id" = Some (PJson (JStr "pyh3646")).
Proof.
  destruct (live_identity
              (H := table_host (station_table [("BJNICK", JStr "JINU")]
                                  "2021-12-28 03:18:15"))
              "pyh3646" (Some "237852185") None _ eq_refl)
    as (ci & id & Hci & _ & Hid & _ & _ & Hurl & Huploader).
  injection Hci as <-. destruct (Hurl eq_refl) as (bno & [= <-] & _ & ->).
  eexists. split; [reflexivity|]. split; [exact Hid|exact Huploader].
Defined.

(** ** The entries of a video *)

Lemma common_info_fields `{Host} data :
  common_info data !! "uploader" = not_none (as_str (traverse_key data "writer_nick"))
  /\ common_info data !! "uploader_id" = not_none (as_str (traverse_key data "bj_id"))
  /\ common_info data !! "thumbnail"
     = PJson ∘ JStr <$> url_or_none (traverse_key data "thumb").
Proof.
  unfold common_info. rewrite !lookup_put, lookup_empty.
  destruct (not_none (as_str (traverse_key data "title"))),
    (not_none (as_str (traverse_key data "writer_nick"))),
    (not_none (as_str (traverse_key data "bj_id"))),
    (int_or_none (traverse_key data "total_file_duration") 1000),
    (url_or_none (traverse_key data "thumb")); cbn;
    repeat split; repeat case_decide; congruence.
Qed.

(** An entry has the fields of [common_info] under the keys that the
    loop does not set itself. *)
Lemma entry_common `{Host} video_id common n fe formats k :
  k ∉ ["id"; "title"; "formats"; "duration"; "timestamp"] ->
  entry video_id common n fe formats !! k = common !! k.
Proof.
  intros Hk. rewrite !not_elem_of_cons in Hk.
  destruct Hk as (? & ? & ? & ? & ? & _).
  unfold entry. rewrite lookup_dict_merge, file_info_lookup.
  rewrite !decide_False by done.
  by rewrite !lookup_insert_ne by done.
Qed.

Lemma entry_id `{Host} video_id common n fe formats :
  entry video_id common n fe formats !! "id"
  = Some (PJson (py_or (dict_get fe "file_info_key")
                   (JStr (video_id +:+ "_" +:+ pretty n)))).
Proof.
  unfold entry. rewrite lookup_dict_merge, file_info_lookup.
  rewrite !decide_False by discriminate.
  rewrite !lookup_insert_ne by discriminate. by rewrite lookup_insert_eq.
Qed.

(** The entries of a result, file by file. *)
Lemma extract_data_entries `{Host} video_id data x :
  outcome (extract_data video_id data) = inr x ->
  length (entries_of x) = length (files data)
  /\ forall (k : nat) fe, files data !! k = Some fe ->
       exists formats e,
         formats_for video_id (S k) fe = inr formats
         /\ entries_of x !! k = Some e
         /\ forall key, key <> "title" ->
              e !! key = entry video_id (common_info data) (S k) fe formats !! key.
Proof.
  intros Hx. destruct (extract_data_shape _ _ _ Hx) as (es & Hlen & Hk & Hshape).
  destruct Hshape as [(e & -> & ->)|(_ & meta & ->)]; cbn [entries_of].
  - split; [done|]. intros k fe Hfe. destruct (Hk k fe Hfe) as (formats & Hfor & Hes).
    destruct k as [|k]; [|done]. injection Hes as ->.
    eexists formats, _. split; [done|]. split; [done|].
    intros key Hkey. by rewrite lookup_insert_ne.
  - split; [done|]. intros k fe Hfe. destruct (Hk k fe Hfe) as (formats & Hfor & Hes).
    by eexists formats, _.
Qed.

Lemma entries_of_elem `{Host} video_id data x e :
  outcome (extract_data video_id data) = inr x ->
  e ∈ entries_of x ->
  exists (k : nat) fe formats,
    files data !! k = Some fe
    /\ forall key, key <> "title" ->
         e !! key = entry video_id (common_info data) (S k) fe formats !! key.
Proof.
  intros Hx He. destruct (extract_data_entries _ _ _ Hx) as [Hlen Hk].
  apply list_elem_of_lookup in He as [k He].
  destruct (lookup_lt_is_Some_2 (files data) k) as [fe Hfe].
  { rewrite <- Hlen. by apply lookup_lt_Some in He. }
  destruct (Hk k fe Hfe) as (formats & e' & _ & He' & Hsame).
  rewrite He in He'. injection He' as <-. by exists k, fe, formats.
Qed.

(** X6.  Every entry of what the video resolution returns, the single
    item as well as each part, carries the uploader, the uploader id and
    the thumbnail of the response: the fields [writer_nick] and [bj_id]
    when they are strings, the field [thumb] when it is a URL; a field of
    another type leaves the key of the entry unset. *)
Theorem entries_carry_common_fields `{Host} video_id data x e :
  outcome (extract_data video_id data) = inr x ->
  e ∈ entries_of x ->
  e !! "uploader" = not_none (as_str (traverse_key data "writer_nick"))
  /\ e !! "uploader_id" = not_none (as_str (traverse_key data "bj_id"))
  /\ e !! "thumbnail" = PJson ∘ JStr <$> url_or_none (traverse_key data "thumb").
Proof.
  intros Hx He.
  destruct (entries_of_elem _ _ _ _ Hx He) as (k & fe & formats & _ & Hsame).
  destruct (common_info_fields data) as (Hup & Hid & Hthumb).
  rewrite !Hsame by discriminate.
  rewrite !entry_common by (rewrite !not_elem_of_cons, elem_of_nil; naive_solver).
  done.
Qed.

Lemma entries_carry_common_fields_witness :
  exists x e,
    outcome (extract_data (H := table_host no_responses) "121155561" one_file_vod)
    = inr x
    /\ e ∈ entries_of x
    /\ e !! "uploader" = Some (PJson (JStr "BJ"))
    /\ e !! "uploader_id" = Some (PJson (JStr "tjrdbs999"))
    /\ e !! "thumbnail" = Some (PJson (JStr "https://videoimg.afreecatv.com/a.jpg")).
Proof.
  eexists. eexists. split; [reflexivity|].
  split; [apply list_elem_of_singleton; reflexivity|].
  exact (entries_carry_common_fields (H := table_host no_responses)
           "121155561" one_file_vod _ _ eq_refl
           (proj2 (list_elem_of_singleton _ _) eq_refl)).
Defined.

Lemma append_cancel_l (s a b : string) : s +:+ a = s +:+ b -> a = b.
Proof. induction s as [|c s IH]; cbn; [done|]. intros [= Heq]. by apply IH. Qed.

Lemma numbered_id_truthy (video_id : string) (n : nat) :
  truthy (JStr (video_id +:+ "_" +:+ pretty n)) = true.
Proof. by destruct video_id. Qed.

Lemma numbered_id_inj (video_id : string) (m n : nat) :
  video_id +:+ "_" +:+ pretty m = video_id +:+ "_" +:+ pretty n -> m = n.
Proof.
  intros Heq. do 2 apply append_cancel_l in Heq. by apply (inj pretty) in Heq.
Qed.

(** X7.  The id of an entry of what the video resolution returns: the
    entry of the k-th usable file has the file's [file_info_key] as its id
    when that is truthy, and the video id followed by an underscore and the
    number k of the part otherwise; in both cases the id is not empty, and
    the ids of two different files that have no key of their own are
    different. *)
Theorem entry_ids `{Host} video_id data x :
  outcome (extract_data video_id data) = inr x ->
  (forall (k : nat) fe, files data !! k = Some fe ->
     exists e id,
       entries_of x !! k = Some e
       /\ e !! "id" = Some (PJson id)
       /\ truthy id = true
       /\ (truthy (dict_get fe "file_info_key") = true ->
             id = dict_get fe "file_info_key")
       /\ (truthy (dict_get fe "file_info_key") = false ->
             id = JStr (video_id +:+ "_" +:+ pretty (S k))))
  /\ (forall (j k : nat) fe fe' e e',
        j <> k ->
        files data !! j = Some fe -> files data !! k = Some fe' ->
        truthy (dict_get fe "file_info_key") = false ->
        truthy (dict_get fe' "file_info_key") = false ->
        entries_of x !! j = Some e -> entries_of x !! k = Some e' ->
        e !! "id" <> e' !! "id").
Proof.
  intros Hx. destruct (extract_data_entries _ _ _ Hx) as [_ Hk].
  assert (forall (k : nat) fe e,
            files data !! k = Some fe -> entries_of x !! k = Some e ->
            e !! "id" = Some (PJson (py_or (dict_get fe "file_info_key")
                                       (JStr (video_id +:+ "_" +:+ pretty (S k))))))
    as Hid.
  { intros k fe e Hfe He. destruct (Hk k fe Hfe) as (formats & e' & _ & He' & Hsame).
    rewrite He in He'. injection He' as <-.
    rewrite Hsame by discriminate. apply entry_id. }
  split.
  - intros k fe Hfe. destruct (Hk k fe Hfe) as (formats & e & _ & He & _).
    exists e. eexists. split; [done|]. split; [by apply Hid|].
    unfold py_or. destruct (truthy (dict_get fe "file_info_key")) eqn:Hkey.
    + done.
    + split; [apply numbered_id_truthy|done].
  - intros j k fe fe' e e' Hjk Hfe Hfe' Hkey Hkey' He He'.
    rewrite (Hid _ _ _ Hfe He), (Hid _ _ _ Hfe' He').
    unfold py_or. rewrite Hkey, Hkey'. intros [= Heq].
    apply numbered_id_inj in Heq. lia.
Qed.

(** The first file has a key of its own, the second has the numbered id. *)
Lemma entry_ids_witness :
  exists x e e',
    outcome (extract_data (H := table_host no_responses) "121155561" two_file_vod)
    = inr x
    /\ entries_of x !! 0%nat = Some e
    /\ e !! "id" = Some (PJson (JStr "20240325_ACBC028E_259970062_1"))
    /\ entries_of x !! 1%nat = Some e'
    /\ e' !! "id" = Some (PJson (JStr "121155561_2")).
Proof.
  destruct (proj1 (entry_ids (H := table_host no_responses)
                     "121155561" two_file_vod _ eq_refl) 0%nat first_file eq_refl)
    as (e & id & He & Hid & _ & Hkey & _).
  destruct (proj1 (entry_ids (H := table_host no_responses)
                     "121155561" two_file_vod _ eq_refl) 1%nat second_file eq_refl)
    as (e' & id' & He' & Hid' & _ & _ & Hnumbered).
  rewrite (Hkey eq_refl) in Hid. rewrite (Hnumbered eq_refl) in Hid'.
  eexists. exists e, e'. split; [reflexivity|].
  split; [exact He|]. split; [exact Hid|]. split; [exact He'|exact Hid'].
Defined.

(** ** The requests and the failures of a video resolution *)

Lemma omap_all_none {A B} (f : A -> option B) (l : list A) :
  (forall a, a ∈ l -> f a = None) -> omap f l = [].
Proof.
  induction l as [|a l IH]; intros Hnone; [done|].
  cbn. rewrite (Hnone a) by left. apply IH. intros b Hb. apply Hnone. by right.
Qed.

(** X8.  A response that passes the checks of the error code and of the
    content flag and lists no file with a usable address (no [files] at
    all, or none whose [file] the helper [url_or_none] accepts) is no
    error: the resolution returns a playlist without entries, and asks for
    no manifest. *)
Theorem no_usable_file_empty_playlist `{Host} video_id data :
  outcome (check_error_code data) = inr tt ->
  outcome (check_flag data) = inr tt ->
  (forall v, v ∈ branch_values (traverse_key data "files") -> usable_file v = None) ->
  exists meta,
    extract_data video_id data = (trace (check_flag data), inr (Playlist meta [])).
Proof.
  intros Hcode Hflag Hnone. rewrite (extract_data_passed _ _ Hcode Hflag).
  unfold assemble, files. rewrite (omap_all_none _ _ Hnone).
  cbn [entries_from]. run. cbn [trace outcome fst snd]. rewrite app_nil_r.
  by eexists.
Qed.

Lemma no_usable_file_empty_playlist_witness :
  exists meta,
    extract_data (H := table_host no_responses) "121155561"
      (JDict [("title", JStr "Evening stream");
              ("files", JList [JDict [("file", JStr "no address")]; JNull])])
    = ([], inr (Playlist meta [])).
Proof.
  apply (no_usable_file_empty_playlist (H := table_host no_responses) "121155561"
           (JDict [("title", JStr "Evening stream");
                   ("files", JList [JDict [("file", JStr "no address")]; JNull])])
           eq_refl eq_refl).
  intros v Hv. cbn in Hv.
  apply elem_of_cons in Hv as [->|Hv]; [reflexivity|].
  apply list_elem_of_singleton in Hv as ->. reflexivity.
Defined.

Lemma part_formats_trace `{Host} video_id (n : nat) file_url :
  trace (part_formats video_id n file_url)
  = if String.eqb (determine_ext file_url) "m3u8"
    then [Requested (ReqM3u8 file_url video_id n)] else [].
Proof. unfold part_formats. by destruct (String.eqb _ _). Qed.

Lemma entries_from_trace `{Host} video_id common fs :
  forall (n : nat) es,
    outcome (entries_from video_id common n fs) = inr es ->
    trace (entries_from video_id common n fs) = manifest_requests video_id n fs.
Proof.
  induction fs as [|fe fs IH]; intros n es Hrun; [done|].
  cbn [entries_from manifest_requests] in *.
  rewrite outcome_bind in Hrun. rewrite trace_bind, part_formats_trace.
  destruct (outcome (part_formats _ _ _)) as [e|formats]; [done|].
  rewrite outcome_bind in Hrun. rewrite trace_bind.
  destruct (outcome (entries_from _ _ (S n) fs)) as [e|es'] eqn:Hrest; [done|].
  rewrite (IH _ _ Hrest). cbn [trace fst]. by rewrite app_nil_r.
Qed.

Lemma assemble_trace `{Host} video_id data x :
  outcome (assemble video_id data) = inr x ->
  trace (assemble video_id data) = manifest_requests video_id 1 (files data).
Proof.
  unfold assemble. rewrite outcome_bind, trace_bind.
  destruct (outcome (entries_from _ _ _ _)) as [e|es] eqn:Hes; [done|].
  intros _. rewrite (entries_from_trace _ _ _ _ _ Hes).
  destruct es as [|e [|e' es]]; cbn [trace fst]; by rewrite app_nil_r.
Qed.

Lemma check_flag_run `{Host} data :
  outcome (check_flag data) = inr tt ->
  trace (check_flag data)
  = if eq_str (as_str (traverse_key data "flag")) "PARTIAL_ADULT"
    then [Warned partial_adult_warning] else [].
Proof.
  unfold check_flag. destruct (eq_str _ "PARTIAL_ADULT"); [done|].
  by destruct (eq_str _ "ADULT").
Qed.

(** What a video resolution that returns was given. *)
Lemma real_extract_inr `{Host} video_id x :
  outcome (AfreecaTVIE_real_extract video_id) = inr x ->
  exists o data,
    fetch (ReqVideoView video_id) = Some (JDict o)
    /\ assoc "data" o = Some data
    /\ outcome (check_error_code data) = inr tt
    /\ outcome (check_flag data) = inr tt
    /\ outcome (assemble video_id data) = inr x.
Proof.
  unfold AfreecaTVIE_real_extract, _download_json.
  rewrite bind_assoc_M, emit_bind. cbn [outcome snd].
  destruct (fetch (ReqVideoView video_id)) as [j|]; [|done]. run.
  destruct j as [| | | | | |o]; try done. cbn [py_getitem].
  destruct (assoc "data" o) as [data|] eqn:Hdata; [|done]. run.
  unfold extract_data. rewrite outcome_bind.
  destruct (outcome (check_error_code data)) as [e|[]] eqn:Hcode; [done|].
  rewrite outcome_bind.
  destruct (outcome (check_flag data)) as [e|[]] eqn:Hflag; [done|].
  intros Hx. by exists o, data.
Qed.



Lemma entries_from_error `{Host} video_id common fs :
  forall (n : nat) e,
    outcome (entries_from video_id common n fs) = inl e ->
    exists (k : nat) fe,
      fs !! k = Some fe
      /\ determine_ext (dict_get fe "file") = "m3u8"
      /\ m3u8_formats (dict_get fe "file") video_id (n + k) = inl e.
Proof.
  induction fs as [|fe fs IH]; intros n e Hrun; [done|].
  cbn [entries_from] in Hrun. rewrite outcome_bind in Hrun.
  destruct (outcome (part_formats _ _ _)) as [e'|formats] eqn:Hf.
  - injection Hrun as ->. exists 0%nat, fe. split; [done|].
    unfold part_formats in Hf.
    destruct (String.eqb_spec (determine_ext (dict_get fe "file")) "m3u8"); [|done].
    split; [done|]. rewrite emit_bind in Hf. cbn in Hf.
    by replace (n + 0)%nat with n by lia.
  - rewrite outcome_bind in Hrun.
    destruct (outcome (entries_from _ _ (S n) fs)) as [e'|es] eqn:Hrest; [|done].
    injection Hrun as ->. destruct (IH _ _ Hrest) as (k & fe' & Hk & Hext & Hm).
    exists (S k), fe'. split; [done|]. split; [done|].
    by replace (n + S k)%nat with (S n + k)%nat by lia.
Qed.



(** ** A page of a listing, and the log-in *)

Lemma item_result_outcome `{Host} item :
  outcome (item_result item)
  = match title_no_of item with
    | Some title_no =>
        inr (url_result ("https://vod.afreecatv.com/player/" +:+ py_str title_no +:+ "/")
               "AfreecaTV" title_no)
    | None =>
        inl (PyException (match item with JDict _ => "KeyError" | _ => "TypeError" end))
    end.
Proof.
  unfold item_result. destruct item as [| | | | | |o]; try done.
  cbn [py_getitem title_no_of]. by destruct (assoc "title_no" o).
Qed.

Lemma for_each_inr {A B} (f : A -> M B) (l : list A) :
  Forall (fun x => exists y, outcome (f x) = inr y) l ->
  exists ys,
    outcome (for_each f l) = inr ys
    /\ Forall2 (fun x y => outcome (f x) = inr y) l ys.
Proof.
  induction 1 as [|x l [y Hy] _ (ys & Hys & Hall)].
  - exists []. by split.
  - exists (y :: ys). split; [|by constructor].
    cbn [for_each]. by rewrite outcome_bind, Hy, outcome_bind, Hys.
Qed.

Lemma for_each_inl {A B} (f : A -> M B) (l : list A) x e :
  x ∈ l -> outcome (f x) = inl e ->
  exists e', outcome (for_each f l) = inl e' /\ exists x', x' ∈ l /\ outcome (f x') = inl e'.
Proof.
  intros Hx Hfail. induction l as [|a l IH]; [by apply elem_of_nil in Hx|].
  cbn [for_each]. rewrite outcome_bind.
  destruct (outcome (f a)) as [e'|y] eqn:Ha.
  { exists e'. split; [done|]. exists a. split; [left|done]. }
  apply elem_of_cons in Hx as [->|Hx]; [congruence|].
  destruct (IH Hx) as (e' & Hrun & x' & Hx' & He').
  exists e'. rewrite outcome_bind, Hrun. split; [done|].
  exists x'. split; [by right|done].
Qed.

Lemma url_result_lookup url ie_key video_id :
  url_result url ie_key video_id !! "url" = Some (PJson (JStr url))
  /\ url_result url ie_key video_id !! "ie_key" = Some (PJson (JStr ie_key))
  /\ url_result url ie_key video_id !! "id" = Some (PJson video_id).
Proof.
  unfold url_result. repeat split;
    repeat (rewrite lookup_insert_ne by discriminate);
    first [by rewrite lookup_insert_eq | apply lookup_singleton_eq].
Qed.

Lemma fetch_page_outcome `{Host} user_id user_type (page : nat) o items :
  fetch (ReqVods user_id user_type (S page) 60) = Some (JDict o) ->
  assoc "data" o = Some (JList items) ->
  outcome (_fetch_page user_id user_type page) = outcome (for_each item_result items).
Proof.
  intros Hfetch Hdata. unfold _fetch_page, _PER_PAGE.
  rewrite (bind_run _ _ _ _ (download_found true _ _ Hfetch)). cbn [outcome snd].
  cbn [py_getitem]. rewrite Hdata. run. cbn [py_iter]. by run.
Qed.

(** The redirects of a page whose items all have a [title_no]. *)
Lemma fetch_page_items `{Host} user_id user_type (page : nat) o items :
  fetch (ReqVods user_id user_type (S page) 60) = Some (JDict o) ->
  assoc "data" o = Some (JList items) ->
  Forall (fun item => is_Some (title_no_of item)) items ->
  exists es,
    outcome (_fetch_page user_id user_type page) = inr es
    /\ Forall2
         (fun item (e : info) =>
            exists title_no,
              title_no_of item = Some title_no
              /\ e = url_result ("https://vod.afreecatv.com/player/"
                                 +:+ py_str title_no +:+ "/") "AfreecaTV" title_no)
         items es.
Proof.
  intros Hfetch Hdata Hall. rewrite (fetch_page_outcome _ _ _ _ _ Hfetch Hdata).
  destruct (for_each_inr item_result items) as (es & Hes & Hitems).
  { eapply Forall_impl; [exact Hall|]. intros item [t Ht].
    rewrite item_result_outcome, Ht. by eexists. }
  exists es. split; [done|].
  eapply Forall2_impl; [exact Hitems|]. intros item e He. cbn beta in He.
  rewrite item_result_outcome in He.
  destruct (title_no_of item) as [t|]; [|done]. injection He as <-. by exists t.
Qed.

(** X11.  A page of a listing whose answer has a list under [data].
    When every item of the list is an object with a [title_no], the page
    is one redirect per item, in the order of the items: each refers to the
    extractor of videos, has the item's [title_no] as its id, and as its
    URL the address of the player followed by that number and a slash.
    When an item is no object or has no [title_no], the page as a whole
    fails, with an exception of Python's own, and yields no redirect. *)
Theorem fetch_page_redirects `{Host} user_id user_type (page : nat) o items :
  fetch (ReqVods user_id user_type (S page) 60) = Some (JDict o) ->
  assoc "data" o = Some (JList items) ->
  (Forall (fun item => is_Some (title_no_of item)) items ->
     exists es,
       outcome (_fetch_page user_id user_type page) = inr es
       /\ Forall2
            (fun item (e : info) =>
               exists title_no,
                 title_no_of item = Some title_no
                 /\ e !! "url"
                    = Some (PJson (JStr ("https://vod.afreecatv.com/player/"
                                         +:+ py_str title_no +:+ "/")))
                 /\ e !! "ie_key" = Some (PJson (JStr "AfreecaTV"))
                 /\ e !! "id" = Some (PJson title_no))
            items es)
  /\ (forall item,
        item ∈ items -> title_no_of item = None ->
        exists e, outcome (_fetch_page user_id user_type page) = inl e /\ python_error e).
Proof.
  intros Hfetch Hdata. split.
  - intros Hall.
    destruct (fetch_page_items _ _ _ _ _ Hfetch Hdata Hall) as (es & Hes & Hitems).
    exists es. split; [done|].
    eapply Forall2_impl; [exact Hitems|]. intros item e (t & Ht & ->).
    exists t. split; [done|]. apply url_result_lookup.
  - rewrite (fetch_page_outcome _ _ _ _ _ Hfetch Hdata). intros item Hitem Hnone.
    destruct (for_each_inl item_result items item
                (PyException (match item with JDict _ => "KeyError" | _ => "TypeError" end))
                Hitem) as (e & Hrun & item' & _ & He).
    { by rewrite item_result_outcome, Hnone. }
    exists e. split; [done|]. rewrite item_result_outcome in He.
    destruct (title_no_of item'); [done|]. injection He as <-. by eexists.
Qed.

(** The first page of the listing of a user with two videos. *)
Lemma fetch_page_redirects_witness :
  exists e e',
    outcome (_fetch_page (H := table_host listing_table) "ryuryu24" "all" 0)
    = inr [e; e']
    /\ e !! "url" = Some (PJson (JStr "https://vod.afreecatv.com/player/121155561/"))
    /\ e' !! "url" = Some (PJson (JStr "https://vod.afreecatv.com/player/119630771/")).
Proof.
  destruct (proj1 (fetch_page_redirects (H := table_host listing_table)
                     "ryuryu24" "all" 0 _ _ eq_refl eq_refl))
    as (es & Hes & Hall).
  { repeat constructor; by eexists. }
  injection Hes as <-.
  apply Forall2_cons_1 in Hall as [(t & Ht & Hurl & _) Hall].
  apply Forall2_cons_1 in Hall as [(t' & Ht' & Hurl' & _) _].
  injection Ht as <-. injection Ht' as <-.
  eexists. eexists. split; [reflexivity|]. split; [exact Hurl|exact Hurl'].
Defined.

(** X12.  The log-in makes exactly one request, whatever the answer and
    whatever the outcome.  A download that fails is fatal here, and an
    answer that is no object raises [AttributeError]: the log-in returns
    only after an answer that is an object. *)
Theorem perform_login_one_request `{Host} ie_name username password :
  trace (_perform_login ie_name username password)
  = [Requested (ReqLogin username password)]
  /\ (fetch (ReqLogin username password) = None ->
        outcome (_perform_login ie_name username password)
        = inl (DownloadFailed (ReqLogin username password)))
  /\ (outcome (_perform_login ie_name username password) = inr tt ->
        exists o,
          fetch (ReqLogin username password) = Some (JDict o)
          /\ int_or_none (dict_get o "RESULT") 1 = Some 1).
Proof.
  unfold _perform_login, _download_json. rewrite bind_assoc_M, emit_bind.
  cbn [trace outcome fst snd].
  destruct (fetch (ReqLogin username password)) as [j|]; run.
  2:{ by repeat split. }
  destruct j as [| | | | | |o]; cbn [py_get]; run;
    try (by repeat split).
  destruct (int_or_none (dict_get o "RESULT") 1) as [[|[]|]|] eqn:Hresult;
    cbn [trace outcome fst snd]; (split; [done|]); (split; [done|]);
    try done.
  intros _. by exists o.
Qed.

(** ** URL patterns *)

(** The URLs of the [_TESTS] entries. *)
Example valid_url_tests :
  _match_id AfreecaTVIE_VALID_URL "https://vod.afreecatv.com/player/121155561"
  = Some "121155561"
  /\ _match_id AfreecaTVIE_VALID_URL
       "http://live.afreecatv.com:8079/app/index.cgi?szType=read_ucc_bbs&szBjId=dailyapril&nStationNo=16711924&nBbsNo=18605867&nTitleNo=36164052&szSkin="
     = Some "36164052"
  /\ re_match AfreecaTVLiveIE_VALID_URL "https://play.afreecatv.com/pyh3646/237852185"
     = Some {[ "id" := "pyh3646"; "bno" := "237852185" ]}
  /\ re_match AfreecaTVLiveIE_VALID_URL "http://play.afreeca.com/pyh3646"
     = Some {[ "id" := "pyh3646" ]}
  /\ re_match AfreecaTVUserIE_VALID_URL "https://bj.afreecatv.com/ryuryu24/vods/review"
     = Some {[ "id" := "ryuryu24"; "slug_type" := "review" ]}
  /\ re_match AfreecaTVUserIE_VALID_URL "https://bj.afreecatv.com/ryuryu24/vods"
     = Some {[ "id" := "ryuryu24" ]}
  /\ re_match AfreecaTVLiveIE_VALID_URL "https://vod.afreecatv.com/player/1" = None.
Proof. repeat split; vm_compute; reflexivity. Qed.

Lemma length_append (s t : string) :
  String.length (s +:+ t) = (String.length s + String.length t)%nat.
Proof. induction s as [|c s IH]; [done|]. simpl. by rewrite IH. Qed.

Lemma append_empty_r (s : string) : s +:+ "" = s.
Proof.
  induction s as [|c s IH]; [done|].
  change (String c (s +:+ "") = String c s). by rewrite IH.
Qed.

Lemma take_chars_append (s t : string) : take_chars (String.length s) (s +:+ t) = s.
Proof.
  induction s as [|c s IH]; [by destruct t|]. simpl. by rewrite IH.
Qed.

Lemma taken_append (s t : string) : taken (s +:+ t) t = s.
Proof.
  unfold taken. rewrite length_append.
  replace (String.length s + String.length t - String.length t)%nat
    with (String.length s) by lia.
  apply take_chars_append.
Qed.

(** How a match is found, step by step. *)
Lemma run_seq_cons r rs prev s caps k :
  run (seq_of (r :: rs)) prev s caps k
  = run r prev s caps (fun prev' s' caps' => run (seq_of rs) prev' s' caps' k).
Proof. done. Qed.

Lemma run_seq_nil prev s caps k : run (seq_of []) prev s caps k = k prev s caps.
Proof. done. Qed.

Lemma run_group name r prev s caps k :
  run (Group name r) prev s caps k
  = run r prev s caps
      (fun prev' s' caps' => k prev' s' (<[name := taken s s']> caps')).
Proof. done. Qed.

Lemma run_lit_found l prev s caps k prev' s' :
  lit l prev s = Some (prev', s') ->
  run (Lit l) prev s caps k = k prev' s' caps.
Proof. intros Hl. cbn [run]. by rewrite Hl. Qed.

Lemma run_opt_taken r prev s caps k found :
  run r prev s caps k = Some found -> run (Opt r) prev s caps k = Some found.
Proof. intros Hr. cbn [run]. by rewrite Hr. Qed.

Lemma run_opt_skipped r prev s caps k :
  run r prev s caps k = None -> run (Opt r) prev s caps k = k prev s caps.
Proof. intros Hr. cbn [run]. by rewrite Hr. Qed.

Lemma greedy_star_all cl s rest caps (k : continuation) found :
  every (in_class cl) s = true ->
  match rest with String c _ => in_class cl c = false | EmptyString => True end ->
  (forall prev, k prev rest caps = Some found) ->
  forall prev, greedy_star cl prev (s +:+ rest) caps k = Some found.
Proof.
  intros Hs Hrest Hk. induction s as [|c s IH]; intros prev.
  - simpl. destruct rest as [|c rest]; simpl; [apply Hk|].
    rewrite Hrest. apply Hk.
  - simpl in Hs. apply andb_prop in Hs as [Hc Hs].
    simpl. by rewrite Hc, (IH Hs).
Qed.

(** A named group [cl+] takes all of a text [s] of the class that is
    followed by none of the class. *)
Lemma run_group_plus name cl s rest prev caps (k : continuation) found :
  s <> "" ->
  every (in_class cl) s = true ->
  match rest with String c _ => in_class cl c = false | EmptyString => True end ->
  (forall prev', k prev' rest (<[name := s]> caps) = Some found) ->
  run (Group name (Plus cl)) prev (s +:+ rest) caps k = Some found.
Proof.
  intros Hne Hs Hrest Hk. destruct s as [|c s]; [done|].
  simpl in Hs. apply andb_prop in Hs as [Hc Hs].
  simpl. rewrite Hc.
  apply (greedy_star_all cl s rest caps
           (fun prev' s' caps' =>
              k prev' s' (<[name := taken (String c s +:+ rest) s']> caps'))); [done..|].
  intros prev'. rewrite taken_append. apply Hk.
Qed.

Lemma ends_number_no_digit rest :
  ends_number rest = true ->
  match rest with String c _ => in_class Digit c = false | EmptyString => True end.
Proof.
  destruct rest as [|c rest]; [done|]. cbn. intros [_ Hc]%andb_prop.
  by destruct (is_digit c).
Qed.

Lemma ends_segment_slash rest :
  ends_segment rest = true ->
  match rest with String c _ => in_class NotSlash c = false | EmptyString => True end.
Proof. destruct rest as [|c rest]; [done|]. cbn. by intros ->. Qed.

(** No number starts where a number has ended. *)
Lemma run_plus_digit_none rest prev caps k :
  ends_number rest = true -> run (Plus Digit) prev rest caps k = None.
Proof.
  intros Hrest. apply ends_number_no_digit in Hrest.
  destruct rest as [|c rest]; [done|]. cbn [run]. by rewrite Hrest.
Qed.

Ltac lit_step :=
  rewrite run_seq_cons; erewrite run_lit_found by reflexivity; cbn beta.

Ltac opt_skip :=
  rewrite run_seq_cons; rewrite run_opt_skipped by reflexivity; cbn beta.

Ltac opt_lit :=
  rewrite run_seq_cons; apply run_opt_taken;
  erewrite run_lit_found by reflexivity; cbn beta.

Ltac site_prefix secure tv :=
  let Hrest := fresh "Hrest" in
  intros Hrest; cbn [app]; destruct secure, tv; lit_step;
  first [opt_lit | opt_skip]; lit_step;
  first [opt_lit | opt_skip]; lit_step; exact Hrest.

(** The start of the pattern of the live extractor, on the addresses of
    live channels. *)
Lemma live_prefix secure tv path rs caps k found :
  run (seq_of rs) (Some "/"%char) path caps k = Some found ->
  run (seq_of ([Lit "http"; Opt (Lit "s"); Lit "://play.afreeca"; Opt (Lit "tv");
                Lit ".com/"] ++ rs))
    None (live_url secure tv path) caps k
  = Some found.
Proof. site_prefix secure tv. Qed.

(** The same for the pattern of the listings. *)
Lemma user_prefix secure tv path rs caps k found :
  run (seq_of rs) (Some "/"%char) path caps k = Some found ->
  run (seq_of ([Lit "http"; Opt (Lit "s"); Lit "://bj.afreeca"; Opt (Lit "tv");
                Lit ".com/"] ++ rs))
    None (user_url secure tv path) caps k
  = Some found.
Proof. site_prefix secure tv. Qed.

Lemma live_pattern_split :
  AfreecaTVLiveIE_VALID_URL
  = seq_of ([Lit "http"; Opt (Lit "s"); Lit "://play.afreeca"; Opt (Lit "tv");
             Lit ".com/"]
            ++ [Group "id" (Plus NotSlash);
                Opt (seq_of [Lit "/"; Group "bno" (Plus Digit)])]).
Proof. done. Qed.

(** X13.  The URL of a live channel, under [http] or [https] and under
    either name of the site, is accepted by the pattern of the live
    extractor, for a channel name that is not empty and has no slash.  The
    name is the group [id].  When a slash and a number follow the name
    (and the number ends there), the number is the group [bno]; when
    nothing follows, or a slash and what is no number, there is no group
    [bno]. *)
Theorem live_url_groups secure tv id :
  id <> "" ->
  every (in_class NotSlash) id = true ->
  (forall bno rest,
     bno <> "" -> every is_digit bno = true -> ends_number rest = true ->
     re_match AfreecaTVLiveIE_VALID_URL (live_url secure tv (id +:+ "/" +:+ bno +:+ rest))
     = Some {[ "id" := id; "bno" := bno ]})
  /\ (forall rest,
        ends_number rest = true ->
        re_match AfreecaTVLiveIE_VALID_URL (live_url secure tv (id +:+ "/" +:+ rest))
        = Some {[ "id" := id ]})
  /\ re_match AfreecaTVLiveIE_VALID_URL (live_url secure tv id) = Some {[ "id" := id ]}.
Proof.
  intros Hne Hid. unfold re_match. rewrite live_pattern_split.
  split; [|split].
  - intros bno rest Hbno Hdigits Hrest. apply live_prefix.
    rewrite run_seq_cons. apply run_group_plus; [done..|]. intros prev.
    rewrite run_seq_cons. apply run_opt_taken. lit_step.
    rewrite run_seq_cons.
    apply run_group_plus; [done|done|by apply ends_number_no_digit|].
    intros prev'. reflexivity.
  - intros rest Hrest. apply live_prefix.
    rewrite run_seq_cons. apply run_group_plus; [done..|]. intros prev.
    rewrite run_seq_cons, run_opt_skipped; [done|]. lit_step.
    rewrite run_seq_cons, run_group. by apply run_plus_digit_none.
  - rewrite <- (append_empty_r id) at 1. apply live_prefix.
    rewrite run_seq_cons. apply run_group_plus; [done..|]. intros prev.
    rewrite run_seq_cons, run_opt_skipped; done.
Qed.

Lemma live_url_groups_witness :
  re_match AfreecaTVLiveIE_VALID_URL
    (live_url true true ("pyh3646" +:+ "/" +:+ "237852185" +:+ "?ref=1"))
  = Some {[ "id" := "pyh3646"; "bno" := "237852185" ]}
  /\ re_match AfreecaTVLiveIE_VALID_URL (live_url false false "pyh3646")
     = Some {[ "id" := "pyh3646" ]}.
Proof.
  split.
  - apply (proj1 (live_url_groups true true "pyh3646" ltac:(discriminate) eq_refl));
      [discriminate|reflexivity|reflexivity].
  - exact (proj2 (proj2 (live_url_groups false false "pyh3646"
                           ltac:(discriminate) eq_refl))).
Defined.

Lemma user_pattern_split :
  AfreecaTVUserIE_VALID_URL
  = seq_of ([Lit "http"; Opt (Lit "s"); Lit "://bj.afreeca"; Opt (Lit "tv");
             Lit ".com/"]
            ++ [Group "id" (Plus NotSlash); Lit "/vods"; Opt (Lit "/");
                Opt (Group "slug_type" (Plus NotSlash))]).
Proof. done. Qed.

(** The groups of the address of a listing. *)
Lemma user_url_groups secure tv id :
  id <> "" ->
  every (in_class NotSlash) id = true ->
  re_match AfreecaTVUserIE_VALID_URL (user_url secure tv (id +:+ "/vods"))
  = Some {[ "id" := id ]}
  /\ re_match AfreecaTVUserIE_VALID_URL (user_url secure tv (id +:+ "/vods/"))
     = Some {[ "id" := id ]}
  /\ forall slug rest,
       slug <> "" -> every (in_class NotSlash) slug = true -> ends_segment rest = true ->
       re_match AfreecaTVUserIE_VALID_URL
         (user_url secure tv (id +:+ "/vods/" +:+ slug +:+ rest))
       = Some {[ "id" := id; "slug_type" := slug ]}.
Proof.
  intros Hne Hid. unfold re_match. rewrite user_pattern_split.
  split; [|split].
  - apply user_prefix.
    rewrite run_seq_cons. apply run_group_plus; [done..|]. intros prev.
    lit_step. opt_skip. by opt_skip.
  - apply user_prefix.
    rewrite run_seq_cons. apply run_group_plus; [done..|]. intros prev.
    lit_step. opt_lit. by opt_skip.
  - intros slug rest Hslug Hclass Hrest. apply user_prefix.
    rewrite run_seq_cons. apply run_group_plus; [done..|]. intros prev.
    lit_step. opt_lit. rewrite run_seq_cons. apply run_opt_taken.
    apply run_group_plus; [done|done|by apply ends_segment_slash|].
    intros prev'. reflexivity.
Qed.

(** X14.  The listing that a URL names.  For the address of the videos
    of a user, under [http] or [https] and under either name of the site,
    with a user name that is not empty and has no slash: when the address
    ends in [/vods] or [/vods/], the pages asked for are those of the
    category "all"; when a category follows, the pages are those of that
    category.  In each case the pages are those of the user of the
    address, page p + 1 for the index p, with 60 items per page. *)
Theorem listing_named_by_url `{Host} secure tv id :
  id <> "" ->
  every (in_class NotSlash) id = true ->
  (forall tail,
     tail = "" \/ tail = "/" ->
     exists meta entries,
       AfreecaTVUserIE_extract (user_url secure tv (id +:+ "/vods" +:+ tail))
       = Some (meta, entries)
       /\ forall p : nat,
            trace (pagefunc entries p) = [Requested (ReqVods id "all" (S p) 60)])
  /\ (forall slug rest,
        slug <> "" -> every (in_class NotSlash) slug = true -> ends_segment rest = true ->
        exists meta entries,
          AfreecaTVUserIE_extract
            (user_url secure tv (id +:+ "/vods/" +:+ slug +:+ rest))
          = Some (meta, entries)
          /\ forall p : nat,
               trace (pagefunc entries p) = [Requested (ReqVods id slug (S p) 60)]).
Proof.
  intros Hne Hid.
  destruct (user_url_groups secure tv id Hne Hid) as (Hplain & Hslash & Hslug).
  unfold AfreecaTVUserIE_extract. split.
  - intros tail [->| ->].
    + rewrite append_empty_r, Hplain. cbn [mbind option_bind].
      rewrite lookup_singleton_eq. cbn [option_bind].
      rewrite lookup_singleton_ne by discriminate.
      eexists _, _. split; [reflexivity|]. intros p. apply fetch_page_trace.
    + change (id +:+ "/vods" +:+ "/") with (id +:+ "/vods/"). rewrite Hslash.
      cbn [mbind option_bind].
      rewrite lookup_singleton_eq. cbn [option_bind].
      rewrite lookup_singleton_ne by discriminate.
      eexists _, _. split; [reflexivity|]. intros p. apply fetch_page_trace.
  - intros slug rest Hne' Hclass Hrest. rewrite (Hslug slug rest Hne' Hclass Hrest).
    cbn [mbind option_bind].
    rewrite lookup_insert_ne by discriminate. rewrite lookup_singleton_eq.
    cbn [option_bind]. rewrite lookup_insert_eq.
    eexists _, _. split; [reflexivity|]. intros p.
    cbn [pagefunc user_type_of]. destruct (String.eqb_spec slug ""); [done|].
    apply fetch_page_trace.
Qed.

Lemma listing_named_by_url_witness :
  (exists meta entries,
     AfreecaTVUserIE_extract (H := table_host listing_table)
       (user_url true true ("ryuryu24" +:+ "/vods" +:+ ""))
     = Some (meta, entries)
     /\ forall p : nat,
          trace (pagefunc entries p) = [Requested (ReqVods "ryuryu24" "all" (S p) 60)])
  /\ (exists meta entries,
        AfreecaTVUserIE_extract (H := table_host listing_table)
          (user_url true true ("ryuryu24" +:+ "/vods/" +:+ "review" +:+ ""))
        = Some (meta, entries)
        /\ forall p : nat,
             trace (pagefunc entries p)
             = [Requested (ReqVods "ryuryu24" "review" (S p) 60)]).
Proof.
  split.
  - apply (proj1 (listing_named_by_url (H := table_host listing_table)
                    true true "ryuryu24" ltac:(discriminate) eq_refl)).
    by left.
  - apply (proj2 (listing_named_by_url (H := table_host listing_table)
                    true true "ryuryu24" ltac:(discriminate) eq_refl));
      [discriminate|reflexivity|reflexivity].
Defined.

Lemma run_alt_left r1 r2 prev s caps k found :
  run r1 prev s caps k = Some found -> run (Alt r1 r2) prev s caps k = Some found.
Proof. intros Hr. cbn [run]. by rewrite Hr. Qed.

Lemma run_alt_right r1 r2 prev s caps k :
  run r1 prev s caps k = None ->
  run (Alt r1 r2) prev s caps k = run r2 prev s caps k.
Proof. intros Hr. cbn [run]. by rewrite Hr. Qed.

(** The groups of the address of the player of a video. *)
Lemma player_url_groups secure upper video_id rest :
  video_id <> "" ->
  every is_digit video_id = true ->
  ends_number rest = true ->
  exists caps,
    re_match AfreecaTVIE_VALID_URL (player_url secure upper (video_id +:+ rest))
    = Some (<["id" := video_id]> caps).
Proof.
  intros Hne Hdigits Hrest. unfold re_match, AfreecaTVIE_VALID_URL.
  pose proof (ends_number_no_digit _ Hrest) as Hend.
  destruct secure, upper; eexists;
    lit_step; first [opt_lit | opt_skip]; lit_step;
    rewrite run_seq_cons, run_alt_right by reflexivity;
    lit_step; rewrite run_seq_cons, run_group;
    first [ rewrite run_alt_right by reflexivity | apply run_alt_left ];
    erewrite run_lit_found by reflexivity; cbn beta;
    lit_step; rewrite run_seq_nil; cbn beta; rewrite run_seq_cons;
    (apply run_group_plus; [done..|]); intros prev'; reflexivity.
Qed.

Lemma player_url_match_id secure upper video_id rest :
  video_id <> "" ->
  every is_digit video_id = true ->
  ends_number rest = true ->
  _match_id AfreecaTVIE_VALID_URL (player_url secure upper (video_id +:+ rest))
  = Some video_id.
Proof.
  intros Hne Hdigits Hrest.
  destruct (player_url_groups secure upper video_id rest Hne Hdigits Hrest)
    as (caps & Hmatch).
  unfold _match_id. rewrite Hmatch. cbn [mbind option_bind].
  apply lookup_insert_eq.
Qed.

(** X15.  The address of the player of a video, under [http] or
    [https] and with the path [player] or [PLAYER/STATION], is accepted by
    the pattern of the video extractor, and the id read from it is the
    number that follows the path: all of its digits, however the address
    goes on after them.  The extractor then resolves the video of that
    number: its first request is for the view of it. *)
Theorem player_url_id `{Host} secure upper video_id rest :
  video_id <> "" ->
  every is_digit video_id = true ->
  ends_number rest = true ->
  _match_id AfreecaTVIE_VALID_URL (player_url secure upper (video_id +:+ rest))
  = Some video_id
  /\ exists resolution,
       AfreecaTVIE_extract (player_url secure upper (video_id +:+ rest))
       = Some resolution
       /\ exists later, trace resolution = Requested (ReqVideoView video_id) :: later.
Proof.
  intros Hne Hdigits Hrest.
  pose proof (player_url_match_id secure upper video_id rest Hne Hdigits Hrest) as Hid.
  split; [exact Hid|]. unfold AfreecaTVIE_extract. rewrite Hid.
  eexists. split; [reflexivity|].
  unfold AfreecaTVIE_real_extract, _download_json.
  rewrite bind_assoc_M, emit_bind. cbn [trace fst]. by eexists.
Qed.

Lemma player_url_id_witness :
  _match_id AfreecaTVIE_VALID_URL
    (player_url false true ("121155561" +:+ "/?change_second=0"))
  = Some "121155561"
  /\ exists resolution,
       AfreecaTVIE_extract (H := table_host no_responses)
         (player_url false true ("121155561" +:+ "/?change_second=0"))
       = Some resolution
       /\ exists later, trace resolution = Requested (ReqVideoView "121155561") :: later.
Proof.
  apply (player_url_id (H := table_host no_responses)
           false true "121155561" "/?change_second=0");
    [discriminate|reflexivity|reflexivity].
Defined.

(** X16.  The redirects of a listing lead to the video extractor.  For
    a page whose items all have a [title_no] that is written as a number,
    every redirect of the page has a URL that the pattern of the video
    extractor accepts, and the video id read from that URL is the item's
    [title_no] as written: following the redirect resolves the video of
    that number. *)
Theorem listing_redirects_resolve `{Host} user_id user_type (page : nat) o items :
  fetch (ReqVods user_id user_type (S page) 60) = Some (JDict o) ->
  assoc "data" o = Some (JList items) ->
  Forall (fun item =>
            exists title_no,
              title_no_of item = Some title_no
              /\ py_str title_no <> ""
              /\ every is_digit (py_str title_no) = true) items ->
  exists es,
    outcome (_fetch_page user_id user_type page) = inr es
    /\ length es = length items
    /\ forall e,
         e ∈ es ->
         exists url title_no,
           e !! "url" = Some (PJson (JStr url))
           /\ e !! "id" = Some (PJson title_no)
           /\ _match_id AfreecaTVIE_VALID_URL url = Some (py_str title_no)
           /\ AfreecaTVIE_extract url
              = Some (AfreecaTVIE_real_extract (py_str title_no)).
Proof.
  intros Hfetch Hdata Hall.
  destruct (fetch_page_items _ _ _ _ _ Hfetch Hdata) as (es & Hes & Hitems).
  { eapply Forall_impl; [exact Hall|]. intros item (t & Ht & _). by exists t. }
  exists es. split; [done|]. split; [symmetry; by eapply Forall2_length|].
  intros e He. apply list_elem_of_lookup in He as [k He].
  destruct (Forall2_lookup_r _ _ _ _ _ Hitems He) as (item & Hitem & t & Ht & ->).
  rewrite Forall_lookup in Hall.
  destruct (Hall _ _ Hitem) as (t' & Ht' & Hne & Hdigits).
  rewrite Ht in Ht'. injection Ht' as <-.
  assert (_match_id AfreecaTVIE_VALID_URL
            ("https://vod.afreecatv.com/player/" +:+ py_str t +:+ "/")
          = Some (py_str t)) as Hid.
  { exact (player_url_match_id true false (py_str t) "/" Hne Hdigits eq_refl). }
  eexists _, t. split; [apply url_result_lookup|]. split; [apply url_result_lookup|].
  split; [exact Hid|]. unfold AfreecaTVIE_extract. by rewrite Hid.
Qed.

(** The two videos of the first page of a listing. *)
Lemma listing_redirects_resolve_witness :
  exists es,
    outcome (_fetch_page (H := table_host listing_table) "ryuryu24" "all" 0) = inr es
    /\ length es = 2%nat
    /\ forall e,
         e ∈ es ->
         exists url title_no,
           e !! "url" = Some (PJson (JStr url))
           /\ e !! "id" = Some (PJson title_no)
           /\ _match_id AfreecaTVIE_VALID_URL url
              = Some (py_str (H := table_host listing_table) title_no)
           /\ AfreecaTVIE_extract (H := table_host listing_table) url
              = Some (AfreecaTVIE_real_extract (H := table_host listing_table)
                        (py_str (H := table_host listing_table) title_no)).
Proof.
  apply (listing_redirects_resolve (H := table_host listing_table)
           "ryuryu24" "all" 0 _ _ eq_refl eq_refl).
  constructor; [eexists; split; [reflexivity|split; [discriminate|reflexivity]]|].
  constructor; [eexists; split; [reflexivity|split; [discriminate|reflexivity]]|].
  constructor.
Defined.

(** What a match went through. *)
Lemma run_lit_inv l prev s caps k found :
  run (Lit l) prev s caps k = Some found ->
  exists prev' s', k prev' s' caps = Some found.
Proof.
  cbn [run]. destruct (lit l prev s) as [[prev' s']|]; [|done].
  intros Hk. by exists prev', s'.
Qed.

Lemma run_opt_inv r prev s caps k found :
  run (Opt r) prev s caps k = Some found ->
  run r prev s caps k = Some found \/ k prev s caps = Some found.
Proof.
  cbn [run]. destruct (run r prev s caps k) as [found'|]; [|by right].
  intros [= <-]. by left.
Qed.

Lemma greedy_star_inv cl s :
  forall prev caps (k : continuation) found,
    greedy_star cl prev s caps k = Some found ->
    exists m rest prev',
      s = m +:+ rest
      /\ every (in_class cl) m = true
      /\ k prev' rest caps = Some found.
Proof.
  induction s as [|c s IH]; intros prev caps k found Hrun.
  - exists "", "", prev. by repeat split.
  - simpl in Hrun. destruct (in_class cl c) eqn:Hc.
    + destruct (greedy_star cl (Some c) s caps k) as [found'|] eqn:Hrest.
      * injection Hrun as <-. destruct (IH _ _ _ _ Hrest) as (m & rest & prev' & -> & Hm & Hk).
        exists (String c m), rest, prev'. split; [done|]. split; [|done].
        simpl. by rewrite Hc, Hm.
      * exists "", (String c s), prev. by repeat split.
    + exists "", (String c s), prev. by repeat split.
Qed.

Lemma run_group_plus_inv name cl prev s caps (k : continuation) found :
  run (Group name (Plus cl)) prev s caps k = Some found ->
  exists m rest prev',
    m <> ""
    /\ every (in_class cl) m = true
    /\ k prev' rest (<[name := m]> caps) = Some found.
Proof.
  rewrite run_group. cbn [run]. destruct s as [|c s]; [done|].
  destruct (in_class cl c) eqn:Hc; [|done]. intros Hrun.
  apply greedy_star_inv in Hrun as (m & rest & prev' & -> & Hm & Hk).
  change (String c (m +:+ rest)) with (String c m +:+ rest) in Hk.
  rewrite taken_append in Hk.
  exists (String c m), rest, prev'. split; [done|]. split; [|done].
  simpl. by rewrite Hc, Hm.
Qed.

(** X17.  Whatever URL the pattern of the live extractor accepts, the
    channel name that the extractor reads from it (the group [id]) is
    there, is not empty and has no slash in it; and the broadcast number
    (the group [bno]), if the URL has one, is not empty. *)
Theorem live_groups_never_empty url caps :
  re_match AfreecaTVLiveIE_VALID_URL url = Some caps ->
  exists id,
    caps !! "id" = Some id
    /\ id <> ""
    /\ every (in_class NotSlash) id = true
    /\ forall bno, caps !! "bno" = Some bno -> bno <> "".
Proof.
  unfold re_match. rewrite live_pattern_split. cbn [app]. intros Hrun.
  rewrite run_seq_cons in Hrun. apply run_lit_inv in Hrun as (p1 & s1 & Hrun).
  assert (forall prev s,
            run (seq_of [Lit "://play.afreeca"; Opt (Lit "tv"); Lit ".com/";
                         Group "id" (Plus NotSlash);
                         Opt (seq_of [Lit "/"; Group "bno" (Plus Digit)])])
              prev s ∅ (fun _ _ caps => Some caps) = Some caps ->
            exists id,
              caps !! "id" = Some id /\ id <> ""
              /\ every (in_class NotSlash) id = true
              /\ forall bno, caps !! "bno" = Some bno -> bno <> "") as Hafter.
  { clear. intros prev s Hrun.
    rewrite run_seq_cons in Hrun. apply run_lit_inv in Hrun as (p2 & s2 & Hrun).
    assert (forall prev s,
              run (seq_of [Lit ".com/"; Group "id" (Plus NotSlash);
                           Opt (seq_of [Lit "/"; Group "bno" (Plus Digit)])])
                prev s ∅ (fun _ _ caps => Some caps) = Some caps ->
              exists id,
                caps !! "id" = Some id /\ id <> ""
                /\ every (in_class NotSlash) id = true
                /\ forall bno, caps !! "bno" = Some bno -> bno <> "") as Hdomain.
    { clear. intros prev s Hrun.
      rewrite run_seq_cons in Hrun. apply run_lit_inv in Hrun as (p3 & s3 & Hrun).
      rewrite run_seq_cons in Hrun.
      apply run_group_plus_inv in Hrun as (id & rest & p4 & Hne & Hid & Hrun).
      exists id. rewrite run_seq_cons in Hrun.
      apply run_opt_inv in Hrun as [Hrun|Hrun].
      - rewrite run_seq_cons in Hrun. apply run_lit_inv in Hrun as (p5 & s5 & Hrun).
        rewrite run_seq_cons in Hrun.
        apply run_group_plus_inv in Hrun as (bno & rest' & p6 & Hbno & _ & Hrun).
        injection Hrun as <-.
        split; [rewrite lookup_insert_ne by discriminate; apply lookup_insert_eq|].
        split; [done|]. split; [done|].
        intros bno'. rewrite lookup_insert_eq. by intros [= <-].
      - injection Hrun as <-. split; [apply lookup_insert_eq|].
        split; [done|]. split; [done|].
        intros bno'. rewrite lookup_insert_ne by discriminate.
        by rewrite lookup_empty. }
    rewrite run_seq_cons in Hrun. apply run_opt_inv in Hrun as [Hrun|Hrun].
    - apply run_lit_inv in Hrun as (p3 & s3 & Hrun). by apply Hdomain in Hrun.
    - by apply Hdomain in Hrun. }
  rewrite run_seq_cons in Hrun. apply run_opt_inv in Hrun as [Hrun|Hrun].
  - apply run_lit_inv in Hrun as (p2 & s2 & Hrun). by apply Hafter in Hrun.
  - by apply Hafter in Hrun.
Qed.

Lemma live_groups_never_empty_witness :
  exists caps id,
    re_match AfreecaTVLiveIE_VALID_URL "https://play.afreecatv.com/pyh3646/237852185"
    = Some caps
    /\ caps !! "id" = Some id
    /\ id <> "".
Proof.
  destruct (live_groups_never_empty "https://play.afreecatv.com/pyh3646/237852185"
              _ eq_refl) as (id & Hid & Hne & _).
  eexists _, id. split; [reflexivity|]. split; [exact Hid|exact Hne].
Defined.
